(** * cvpysdk.subclients.postgressubclient

    A shallow embedding of [PostgresSubclient] (the PostgreSQL subclient
    of the Commvault Python SDK) and the properties of its [content]
    property, its [backup] and [restore_postgres_server] methods and its
    property refresh.

    Layout:
    - [Py]: the Python values that travel through the class (decoded JSON)
      and the builtin operations the class applies to them, with the
      exceptions they raise;
    - the object graph rooted at a subclient (commcell, backupset,
      instance, agent, client);
    - [Prog]: programs that return, raise, or call a method that lives
      outside the class (base class, transport, instance), each call
      handing over the current object graph;
    - the methods of the class, then the theorems. *)

From Stdlib Require Import ZArith String Ascii List.
From stdpp Require Import base option list strings gmap fin_maps.

Set Warnings "-register-all".
Open Scope string_scope.

(* ===================================================================== *)
(** * Python values and builtins *)
(* ===================================================================== *)

Module Py.

(** Values decoded from the server's JSON payloads, and the values
    callers pass in. Text is modelled as a [string] of 8-bit
    characters holding its UTF-8 encoding, numbers as integers. *)
Inductive PyVal : Type :=
| PyNone
| PyBool (b : bool)
| PyInt (z : Z)
| PyStr (s : string)
| PyList (l : list PyVal)
| PyDict (d : gmap string PyVal).

(** The exceptions that can surface from the class. [SDKException]
    carries the module name and the exception id. *)
Inductive PyExc : Type :=
| SDKException (exception_module exception_id : string)
| AttributeError
| TypeError
| KeyError (key : PyVal)
| IndexError.

Inductive Result (A : Type) : Type :=
| Ok (a : A)
| Err (e : PyExc).
Arguments Ok {A} a.
Arguments Err {A} e.

#[export] Instance result_ret : MRet Result := fun A a => Ok a.
#[export] Instance result_bind : MBind Result := fun A B f m =>
  match m with
  | Ok a => f a
  | Err e => Err e
  end.

(** [str.lower()]. Text is held as its UTF-8 bytes. 'A'..'Z' go to
    'a'..'z'. U+212A KELVIN SIGN (bytes 226 132 170) goes to 'k': it is
    the one character outside ASCII whose lowercase form is made of
    ASCII characters. Every other character outside ASCII is left as it
    is: its lowercase form stays outside ASCII, and the class only
    compares lowercase forms with ASCII words. *)
Definition lower_ascii (c : ascii) : ascii :=
  let n := nat_of_ascii c in
  if (65 <=? n)%nat && (n <=? 90)%nat then ascii_of_nat (n + 32) else c.

Fixpoint lower (s : string) : string :=
  match s with
  | EmptyString => EmptyString
  | String c s' =>
      match s' with
      | String c1 (String c2 rest) =>
          if Ascii.eqb c "226" && Ascii.eqb c1 "132" && Ascii.eqb c2 "170"
          then String "k" (lower rest)
          else String (lower_ascii c) (lower s')
      | _ => String (lower_ascii c) (lower s')
      end
  end.

Fixpoint char_in (c : ascii) (chars : string) : bool :=
  match chars with
  | EmptyString => false
  | String c' chars' => Ascii.eqb c c' || char_in c chars'
  end.

(** [s.lstrip(chars)]: drop leading characters while they belong to
    [chars]. *)
Fixpoint lstrip (chars : string) (s : string) : string :=
  match s with
  | EmptyString => EmptyString
  | String c s' => if char_in c chars then lstrip chars s' else s
  end.

(** Truth value of an object, as [if x:] tests it. *)
Definition truthy (v : PyVal) : bool :=
  match v with
  | PyNone => false
  | PyBool b => b
  | PyInt z => negb (z =? 0)%Z
  | PyStr s => negb (String.eqb s "")
  | PyList l => match l with [] => false | _ :: _ => true end
  | PyDict d => negb (bool_decide (size d = 0))
  end.

(** [v.get(k)]: only a dict has the method; a missing key gives
    [None]. *)
Definition get (v : PyVal) (k : string) : Result PyVal :=
  match v with
  | PyDict d => Ok (default PyNone (d !! k))
  | _ => Err AttributeError
  end.

(** [v[k]] with a string key. *)
Definition getitem (v : PyVal) (k : string) : Result PyVal :=
  match v with
  | PyDict d =>
      match d !! k with
      | Some x => Ok x
      | None => Err (KeyError (PyStr k))
      end
  | _ => Err TypeError
  end.

(** [v[i]] with an integer index [i >= 0]. The keys of a decoded JSON
    object are strings, so an integer is never among them. *)
Definition getitem_idx (v : PyVal) (i : nat) : Result PyVal :=
  match v with
  | PyList l =>
      match l !! i with
      | Some x => Ok x
      | None => Err IndexError
      end
  | PyStr s =>
      match String.get i s with
      | Some c => Ok (PyStr (String c EmptyString))
      | None => Err IndexError
      end
  | PyDict _ => Err (KeyError (PyInt (Z.of_nat i)))
  | _ => Err TypeError
  end.

(** [v.lstrip(chars)]: a method of strings only. *)
Definition py_lstrip (v : PyVal) (chars : string) : Result string :=
  match v with
  | PyStr s => Ok (lstrip chars s)
  | _ => Err AttributeError
  end.

(** [v.update(other)]: a method of dicts only; the keys of [other]
    win. *)
Definition update (v : PyVal) (other : gmap string PyVal) : Result PyVal :=
  match v with
  | PyDict d => Ok (PyDict (other ∪ d))
  | _ => Err AttributeError
  end.

Fixpoint chars_of (s : string) : list PyVal :=
  match s with
  | EmptyString => []
  | String c s' => PyStr (String c EmptyString) :: chars_of s'
  end.

(** The items a [for] loop sees: the elements of a list, the
    characters of a string, the keys of a dict (a [gmap] keeps no
    insertion order; the one loop of the class raises on the first key
    whichever it is). Nothing else that JSON decodes to can be
    iterated. *)
Definition iter (v : PyVal) : Result (list PyVal) :=
  match v with
  | PyList l => Ok l
  | PyStr s => Ok (chars_of s)
  | PyDict d => Ok (PyStr <$> (map_to_list d).*1)
  | _ => Err TypeError
  end.

(** The value model of an assignment through a path that was just
    read: [d[k] = x] and [l[i] = x]. *)
Definition setitem (v : PyVal) (k : string) (x : PyVal) : PyVal :=
  match v with
  | PyDict d => PyDict (<[k := x]> d)
  | _ => v
  end.

Definition setitem_idx (v : PyVal) (i : nat) (x : PyVal) : PyVal :=
  match v with
  | PyList l => PyList (<[i := x]> l)
  | _ => v
  end.

End Py.
Import Py.

(* ===================================================================== *)
(** * The object graph rooted at a subclient *)
(* ===================================================================== *)

(** The attributes of the collaborating objects that the class reads or
    writes. The instance is reached through the backupset only, so the
    graph holds one copy of it and a write to it is seen by every later
    reader. *)

Record Client := { client_name : string }.

Record Agent := { _client_object : Client }.

Record Instance := {
  instance_name : string;
  _agent_object : Agent;
  _restore_association : PyVal
}.

Record Backupset := {
  backupset_name : string;
  _instance_object : Instance
}.

Record Commcell := { _services : gmap string string }.

Record PostgresSubclient := {
  _commcell_object : Commcell;
  _backupset_object : Backupset;
  is_default_subclient : bool;
  _subclient_properties : gmap string PyVal;
  _subClientEntity : PyVal;
  _content : PyVal;
  _postgres_properties : PyVal
}.

(** Attribute assignments. *)

Definition set__content (v : PyVal) (self : PostgresSubclient) : PostgresSubclient :=
  {| _commcell_object := _commcell_object self;
     _backupset_object := _backupset_object self;
     is_default_subclient := is_default_subclient self;
     _subclient_properties := _subclient_properties self;
     _subClientEntity := _subClientEntity self;
     _content := v;
     _postgres_properties := _postgres_properties self |}.

Definition set__subclient_properties (d : gmap string PyVal)
    (self : PostgresSubclient) : PostgresSubclient :=
  {| _commcell_object := _commcell_object self;
     _backupset_object := _backupset_object self;
     is_default_subclient := is_default_subclient self;
     _subclient_properties := d;
     _subClientEntity := _subClientEntity self;
     _content := _content self;
     _postgres_properties := _postgres_properties self |}.

Definition set__postgres_properties (v : PyVal)
    (self : PostgresSubclient) : PostgresSubclient :=
  {| _commcell_object := _commcell_object self;
     _backupset_object := _backupset_object self;
     is_default_subclient := is_default_subclient self;
     _subclient_properties := _subclient_properties self;
     _subClientEntity := _subClientEntity self;
     _content := _content self;
     _postgres_properties := v |}.

(** [self._backupset_object._instance_object._restore_association = v] *)
Definition set__restore_association (v : PyVal)
    (self : PostgresSubclient) : PostgresSubclient :=
  let backup_set_object := _backupset_object self in
  let instance_object := _instance_object backup_set_object in
  {| _commcell_object := _commcell_object self;
     _backupset_object :=
       {| backupset_name := backupset_name backup_set_object;
          _instance_object :=
            {| instance_name := instance_name instance_object;
               _agent_object := _agent_object instance_object;
               _restore_association := v |} |};
     is_default_subclient := is_default_subclient self;
     _subclient_properties := _subclient_properties self;
     _subClientEntity := _subClientEntity self;
     _content := _content self;
     _postgres_properties := _postgres_properties self |}.

(* ===================================================================== *)
(** * Programs over the collaborators *)
(* ===================================================================== *)

Inductive Job := JobHandle (job_id : Z).

Record Response := { status_code : Z; json : PyVal }.

(** The methods the class calls that are defined outside it, indexed by
    the type of what they return: the two base-class methods reached
    through [super], the base-class envelope builder [_backup_json]
    (called with three positional arguments) and response processing,
    the transport [make_request], and [restore_in_place] of the
    instance. Their bodies are not part of the class: what they answer
    and what they do to the objects is left to the [Handler]. *)
Inductive Cmd : Type -> Type :=
| Subclient_backup (backup_level : string) : Cmd Job
| Subclient__get_subclient_properties : Cmd unit
| _backup_json (backup_level : string) (incremental_backup : bool)
    (incremental_level : string) : Cmd PyVal
| make_request (method url : string) (payload : PyVal) : Cmd (bool * Response)
| _process_backup_response (flag : bool) (response : Response) : Cmd Job
| restore_in_place (database_list dest_client_name dest_instance_name : PyVal)
    (backupset_name : string) (backupset_flag : bool)
    (copy_precedence from_time to_time clone_env clone_options : PyVal) : Cmd Job.

(** A program returns or raises in some state of the object graph, or
    calls a collaborator: the call is handed the graph as it is at that
    moment and, when it returns, the program goes on with the answer and
    with the graph as the callee left it. The class has no [try]: an
    exception of a callee ends the program, so [k] covers normal returns
    only. *)
Inductive Prog (R : Type) : Type :=
| Return (r : R) (self : PostgresSubclient)
| Raise (e : PyExc) (self : PostgresSubclient)
| Call {A : Type} (c : Cmd A) (self : PostgresSubclient)
    (k : A -> PostgresSubclient -> Prog R).
Arguments Return {R} r self.
Arguments Raise {R} e self.
Arguments Call {R A} c self k.

Fixpoint prog_bind {A B : Type} (p : Prog A)
    (f : A -> PostgresSubclient -> Prog B) : Prog B :=
  match p with
  | Return a self => f a self
  | Raise e self => Raise e self
  | Call c self k => Call c self (fun a self' => prog_bind (k a self') f)
  end.

(** A method body: a program that starts from the current graph. *)
Definition M (R : Type) : Type := PostgresSubclient -> Prog R.

Definition ret {R} (r : R) : M R := fun self => Return r self.
Definition raise {R} (e : PyExc) : M R := fun self => Raise e self.
Definition call {A} (c : Cmd A) : M A := fun self => Call c self Return.
Definition bind {A B} (m : M A) (f : A -> M B) : M B :=
  fun self => prog_bind (m self) f.
Definition read {A} (f : PostgresSubclient -> A) : M A :=
  fun self => Return (f self) self.
Definition assign (f : PostgresSubclient -> PostgresSubclient) : M unit :=
  fun self => Return tt (f self).
Definition lift {A} (r : Result A) : M A :=
  match r with
  | Ok a => ret a
  | Err e => raise e
  end.

#[export] Instance prog_ret : MRet M := @ret.
#[export] Instance prog_bind_inst : MBind M := fun A B f m => bind m f.

(** ** Running a program against given collaborators *)

(** An answer of the environment to a call: a result or an exception,
    and the graph after the call. *)
Definition Handler : Type :=
  forall A : Type, Cmd A -> PostgresSubclient -> Result A * PostgresSubclient.

Inductive Event : Type :=
| Called {A : Type} (c : Cmd A) (self : PostgresSubclient).

Record Outcome (R : Type) := {
  result : Result R;
  final : PostgresSubclient;
  trace : list Event
}.
Arguments result {R} o.
Arguments final {R} o.
Arguments trace {R} o.

Fixpoint run {R : Type} (h : Handler) (p : Prog R) : Outcome R :=
  match p with
  | Return r self => {| result := Ok r; final := self; trace := [] |}
  | Raise e self => {| result := Err e; final := self; trace := [] |}
  | Call c self k =>
      match h _ c self with
      | (Ok a, self') =>
          let o := run h (k a self') in
          {| result := result o; final := final o;
             trace := Called c self :: trace o |}
      | (Err e, self') =>
          {| result := Err e; final := self'; trace := [Called c self] |}
      end
  end.

(* ===================================================================== *)
(** * The methods of PostgresSubclient *)
(* ===================================================================== *)

(** The body of the [for] loop of [content], run over the items that
    are left, [database_list] being the names appended so far. *)
Fixpoint content_loop (items : list PyVal) (database_list : list string)
    : Result (list string) :=
  match items with
  | [] => Ok database_list
  | database :: items' =>
      c ← get database "postgreSQLContent";
      if truthy c then
        pg ← getitem database "postgreSQLContent";
        n ← get pg "databaseName";
        if truthy n then
          pg' ← getitem database "postgreSQLContent";
          name ← getitem pg' "databaseName";
          stripped ← py_lstrip name "/";
          content_loop items' (database_list ++ [stripped])
        else content_loop items' database_list
      else content_loop items' database_list
  end.

(** The [content] property. It returns [None] by falling off the end
    when [self._content] stays [None]. *)
Definition content : M (option (list string)) :=
  assign (set__content PyNone);;
  default_subclient ← read is_default_subclient;
  (if negb default_subclient then
     properties ← read _subclient_properties;
     match properties !! "content" with
     | Some v => assign (set__content v)
     | None => ret tt
     end
   else ret tt);;
  c ← read _content;
  match c with
  | PyNone => ret None
  | _ =>
      items ← lift (iter c);
      database_list ← lift (content_loop items []);
      ret (Some database_list)
  end.

(** [str(backup_prefix)] for a prefix that is a string. *)
Definition str (s : string) : string := s.

(** [request_json["taskInfo"]["subTasks"][0]["options"]["backupOpts"]
    .update(hana_options)]: the path is read from the outside in, the
    dict found at its end is updated in place, and the document is the
    same object afterwards, so every level of the path holds the updated
    value below it. The envelope is a tree of values here: the dict at
    the end of the path is taken to be reached by this path only, so
    what the update does to other places that would hold the very same
    dict object is not modelled. *)
Definition update_backupOpts (request_json : PyVal)
    (hana_options : gmap string PyVal) : Result PyVal :=
  task_info ← getitem request_json "taskInfo";
  sub_tasks ← getitem task_info "subTasks";
  sub_task ← getitem_idx sub_tasks 0;
  options ← getitem sub_task "options";
  backup_opts ← getitem options "backupOpts";
  backup_opts' ← update backup_opts hana_options;
  Ok (setitem request_json "taskInfo"
       (setitem task_info "subTasks"
         (setitem_idx sub_tasks 0
           (setitem sub_task "options"
             (setitem options "backupOpts" backup_opts'))))).

Definition _backup_request_json (backup_level : string)
    (backup_prefix : string) : M PyVal :=
  request_json ← call (_backup_json backup_level false "BEFORE_SYNTH");
  let hana_options : gmap string PyVal :=
    {[ "hanaOptions" :=
         PyDict {[ "backupPrefix" := PyStr (str backup_prefix) ]} ]} in
  lift (update_backupOpts request_json hana_options).

(** [self._commcell_object._services[name]] *)
Definition service (name : string) : M string :=
  services ← read (fun self => _services (_commcell_object self));
  match services !! name with
  | Some url => ret url
  | None => raise (KeyError (PyStr name))
  end.

Definition backup (backup_level : string) (backup_prefix : option string)
    : M Job :=
  let backup_level := lower backup_level in
  if negb (bool_decide
             (backup_level ∈ ["full"; "incremental"; "differential"]))
  then raise (SDKException "Subclient" "103")
  else
    match backup_prefix with
    | None => call (Subclient_backup backup_level)
    | Some backup_prefix =>
        request_json ← _backup_request_json backup_level backup_prefix;
        url ← service "CREATE_TASK";
        '(flag, response) ← call (make_request "POST" url request_json);
        call (_process_backup_response flag response)
    end.

(** The levels [backup] accepts. *)
Abbreviation backup_levels := ["full"; "incremental"; "differential"] (only parsing).

Definition _get_subclient_properties : M unit :=
  call Subclient__get_subclient_properties;;
  properties ← read _subclient_properties;
  (if negb (bool_decide (is_Some (properties !! "postgreSQLSubclientProp")))
   then assign (set__subclient_properties
                  (<["postgreSQLSubclientProp" := PyDict ∅]> properties))
   else ret tt);;
  properties ← read _subclient_properties;
  match properties !! "postgreSQLSubclientProp" with
  | Some v => assign (set__postgres_properties v)
  | None => raise (KeyError (PyStr "postgreSQLSubclientProp"))
  end.

Definition restore_postgres_server
    (database_list dest_client_name dest_instance_name
     copy_precedence from_time to_time clone_env clone_options : PyVal)
    : M Job :=
  backup_set_object ← read _backupset_object;
  let instance_object := _instance_object backup_set_object in
  let dest_client_name :=
    match dest_client_name with
    | PyNone =>
        PyStr (client_name (_client_object (_agent_object instance_object)))
    | _ => dest_client_name
    end in
  let dest_instance_name :=
    match dest_instance_name with
    | PyNone => PyStr (instance_name instance_object)
    | _ => dest_instance_name
    end in
  let backupset_name := backupset_name backup_set_object in
  let '(backupset_flag, database_list) :=
    if String.eqb (lower backupset_name) "fsbasedbackupset"
    then (true, PyList [PyStr "/data"])
    else (false, database_list) in
  entity ← read _subClientEntity;
  assign (set__restore_association entity);;
  call (restore_in_place database_list dest_client_name dest_instance_name
          backupset_name backupset_flag
          copy_precedence from_time to_time clone_env clone_options).

(** ** Vocabulary of the properties *)

(** The database name an entry of the raw content carries: the
    non-empty string under 'databaseName' inside the dict under
    'postgreSQLContent'. *)
Definition database_name (database : PyVal) : option string :=
  match database with
  | PyDict d =>
      match d !! "postgreSQLContent" with
      | Some (PyDict pg) =>
          match pg !! "databaseName" with
          | Some (PyStr name) =>
              if String.eqb name "" then None else Some name
          | _ => None
          end
      | _ => None
      end
  | _ => None
  end.

(** A well-formed entry is one that carries a database name. *)
Definition well_formed (database : PyVal) : Prop :=
  is_Some (database_name database).

(** A malformed entry is a dict without the 'postgreSQLContent' key (or
    with null under it), or one whose 'postgreSQLContent' dict has no
    'databaseName' (or null, or the empty string, under it). *)
Definition malformed (database : PyVal) : bool :=
  match database with
  | PyDict d =>
      match d !! "postgreSQLContent" with
      | None | Some PyNone => true
      | Some (PyDict pg) =>
          match pg !! "databaseName" with
          | None | Some PyNone => true
          | Some (PyStr name) => String.eqb name ""
          | Some _ => false
          end
      | Some _ => false
      end
  | _ => false
  end.

#[export] Instance well_formed_dec database : Decision (well_formed database).
Proof. unfold well_formed. apply _. Defined.

(** The subclient with [raw] as the 'content' of its raw properties. *)
Definition with_raw_content (raw : list PyVal) (self : PostgresSubclient)
    : PostgresSubclient :=
  set__subclient_properties
    (<["content" := PyList raw]> (_subclient_properties self)) self.

(** The backup-options block of a request document:
    [request_json["taskInfo"]["subTasks"][0]["options"]["backupOpts"]]. *)
Definition backupOpts (request_json : PyVal) : Result PyVal :=
  task_info ← getitem request_json "taskInfo";
  sub_tasks ← getitem task_info "subTasks";
  sub_task ← getitem_idx sub_tasks 0;
  options ← getitem sub_task "options";
  getitem options "backupOpts".

(** The documents handed to the transport in a trace. *)
Definition sent_document (e : Event) : option PyVal :=
  match e with
  | Called c _ =>
      match c with
      | make_request _ _ payload => Some payload
      | _ => None
      end
  end.

Definition sent_documents (t : list Event) : list PyVal :=
  omap sent_document t.

(** The destination the caller gave, or the default when it is [None]. *)
Definition or_default (given : PyVal) (default_name : string) : PyVal :=
  match given with
  | PyNone => PyStr default_name
  | _ => given
  end.

(** The object after the method, given the object [refreshed] that the
    base-class refresh left behind. *)
Definition with_postgres_properties (refreshed : PostgresSubclient)
    : PostgresSubclient :=
  let properties := _subclient_properties refreshed in
  match properties !! "postgreSQLSubclientProp" with
  | Some v => set__postgres_properties v refreshed
  | None =>
      set__postgres_properties (PyDict ∅)
        (set__subclient_properties
           (<["postgreSQLSubclientProp" := PyDict ∅]> properties) refreshed)
  end.

(** ** Sample objects *)

Definition sample_instance : Instance :=
  {| instance_name := "pg1";
     _agent_object := {| _client_object := {| client_name := "client1" |} |};
     _restore_association := PyNone |}.

Definition sample_entity : PyVal :=
  PyDict {[ "subclientName" := PyStr "nightly_dbs"; "subclientId" := PyInt 42 ]}.

Definition entry (name : string) : PyVal :=
  PyDict {[ "postgreSQLContent" := PyDict {[ "databaseName" := PyStr name ]} ]}.

Definition sample_raw_content : list PyVal :=
  [ entry "/postgres"; PyDict ∅; entry ""; entry "//sales";
    PyDict {[ "postgreSQLContent" := PyDict ∅ ]}; entry "hr/2024" ].

Definition sample_subclient : PostgresSubclient :=
  {| _commcell_object :=
       {| _services := {[ "CREATE_TASK" := "https://cs/webconsole/api/CreateTask" ]} |};
     _backupset_object :=
       {| backupset_name := "DumpBasedBackupSet";
          _instance_object := sample_instance |};
     is_default_subclient := false;
     _subclient_properties := {[ "content" := PyList sample_raw_content ]};
     _subClientEntity := sample_entity;
     _content := PyNone;
     _postgres_properties := PyDict ∅ |}.

(** An envelope with the path that [_backup_request_json] follows, and
    backup options made of the three arguments the builder is given. *)
Definition sample_envelope (backup_level : string) (incremental_backup : bool)
    (incremental_level : string) : PyVal :=
  PyDict {[ "taskInfo" := PyDict {[ "subTasks" := PyList [
    PyDict {[ "subTaskOperation" := PyInt 1;
              "options" := PyDict {[ "backupOpts" := PyDict {[
                "backupLevel" := PyStr backup_level;
                "incLevel" := PyStr incremental_level;
                "runIncrementalBackup" := PyBool incremental_backup ]} ]} ]} ] ]} ]}.

(** Collaborators that always succeed and leave the objects alone. *)
Definition sample_handler : Handler := fun A c self =>
  match c in Cmd A return Result A * PostgresSubclient with
  | Subclient_backup _ => (Ok (JobHandle 1), self)
  | Subclient__get_subclient_properties => (Ok tt, self)
  | _backup_json backup_level incremental_backup incremental_level =>
      (Ok (sample_envelope backup_level incremental_backup incremental_level),
       self)
  | make_request _ _ _ =>
      (Ok (true, {| status_code := 200;
                    json := PyDict {[ "jobIds" := PyList [PyStr "2"] ]} |}),
       self)
  | _process_backup_response _ _ => (Ok (JobHandle 2), self)
  | restore_in_place _ _ _ _ _ _ _ _ _ _ => (Ok (JobHandle 3), self)
  end.

(** A subclient whose content list has malformed entries only. *)
Definition malformed_only_subclient : PostgresSubclient :=
  with_raw_content [PyDict ∅; entry ""] sample_subclient.

(** U+212A KELVIN SIGN in UTF-8, and a subclient whose backupset name is
    spelt with it. *)
Definition kelvin_sign : string :=
  String "226" (String "132" (String "170" EmptyString)).

Definition kelvin_subclient : PostgresSubclient :=
  {| _commcell_object := _commcell_object sample_subclient;
     _backupset_object :=
       {| backupset_name := "FSBasedBac" +:+ kelvin_sign +:+ "upSet";
          _instance_object := sample_instance |};
     is_default_subclient := false;
     _subclient_properties := ∅;
     _subClientEntity := sample_entity;
     _content := PyNone;
     _postgres_properties := PyDict ∅ |}.

(** A subclient whose content list holds a string where the dict of the
    database is expected, and one whose 'content' is the empty string. *)
Definition string_content_subclient : PostgresSubclient :=
  with_raw_content [PyDict {[ "postgreSQLContent" := PyStr "x" ]}]
    sample_subclient.

Definition empty_string_subclient : PostgresSubclient :=
  set__subclient_properties {[ "content" := PyStr "" ]} sample_subclient.

(** A subclient of the file-system based backupset. *)
Definition fsbased_subclient : PostgresSubclient :=
  {| _commcell_object := _commcell_object sample_subclient;
     _backupset_object :=
       {| backupset_name := "FSBasedBackupSet";
          _instance_object := sample_instance |};
     is_default_subclient := true;
     _subclient_properties := ∅;
     _subClientEntity := sample_entity;
     _content := PyNone;
     _postgres_properties := PyDict ∅ |}.

(** ** The update document, and more vocabulary *)

Section PropertiesJson.

(** Three attributes the base class keeps on the subclient; the class
    only copies them into the document. *)
Context (_impersonateUser _proxyClient _commonProperties : PyVal).

Definition _get_subclient_properties_json : M PyVal :=
  postgres_properties ← read _postgres_properties;
  subClientEntity ← read _subClientEntity;
  raw_content ← read _content;
  let subclient_json :=
    PyDict {[ "subClientProperties" :=
      PyDict {[ "postgreSQLSubclientProp" := postgres_properties;
                "impersonateUser" := _impersonateUser;
                "proxyClient" := _proxyClient;
                "subClientEntity" := subClientEntity;
                "content" := raw_content;
                "commonProperties" := _commonProperties;
                "contentOperationType" := PyInt 1 ]} ]} in
  ret subclient_json.

End PropertiesJson.

(** An entry on which the loop of [content] raises: it is not a dict, or
    what it holds under 'postgreSQLContent' is true but not a dict, or
    what that dict holds under 'databaseName' is true but not a
    string. *)
Definition ill_typed (database : PyVal) : bool :=
  match database with
  | PyDict d =>
      match d !! "postgreSQLContent" with
      | Some (PyDict pg) =>
          match pg !! "databaseName" with
          | None | Some (PyStr _) => false
          | Some n => truthy n
          end
      | Some c => truthy c
      | None => false
      end
  | _ => true
  end.

(** What [content] leaves in [self._content]: [None] on the default
    subclient or without the 'content' key, else the raw value. *)
Definition content_read (self : PostgresSubclient) : PyVal :=
  if is_default_subclient self then PyNone
  else default PyNone (_subclient_properties self !! "content").

(** A string that does not begin with a slash. *)
Definition no_leading_slash (name : string) : Prop :=
  ∀ rest, name ≠ String "/" rest.

(** The option block that carries the prefix. *)
Definition hana_options (backup_prefix : string) : gmap string PyVal :=
  {[ "hanaOptions" :=
       PyDict {[ "backupPrefix" := PyStr (str backup_prefix) ]} ]}.

(** A subclient of a commcell without services. *)
Definition unserviced_subclient : PostgresSubclient :=
  {| _commcell_object := {| _services := ∅ |};
     _backupset_object := _backupset_object sample_subclient;
     is_default_subclient := false;
     _subclient_properties := ∅;
     _subClientEntity := sample_entity;
     _content := PyNone;
     _postgres_properties := PyDict ∅ |}.

(** Collaborators that fail: the transport always, the envelope builder
    on demand. *)
Definition failing_handler (fail_envelope : bool) : Handler := fun A c self =>
  match c in Cmd A return Result A * PostgresSubclient with
  | _backup_json backup_level incremental_backup incremental_level =>
      if fail_envelope then (Err (SDKException "Subclient" "102"), self)
      else (Ok (sample_envelope backup_level incremental_backup
                  incremental_level), self)
  | make_request _ _ _ => (Err (SDKException "Response" "101"), self)
  | restore_in_place _ _ _ _ _ _ _ _ _ _ =>
      (Err (SDKException "Instance" "102"), self)
  | c' => sample_handler _ c' self
  end.

(* ===================================================================== *)
(** * Properties *)
(* ===================================================================== *)

Example lower_mixed : lower "DiFFerential" = "differential".
Proof. reflexivity. Qed.

Example lower_kelvin_sign :
  lower ("FSBasedBac" +:+ kelvin_sign +:+ "upSet") = "fsbasedbackupset".
Proof. reflexivity. Qed.

Example lstrip_slashes : lstrip "/" "//var/db" = "var/db".
Proof. reflexivity. Qed.

(** Unfold a method body down to its [Return], [Raise] and [Call]
    nodes. *)
Ltac prog_unfold m :=
  unfold m, mbind, mret, prog_bind_inst, prog_ret, bind, lift, ret, raise,
    call, read, assign;
  cbn [prog_bind].

(** ** backup *)

Lemma backup_rejected backup_level backup_prefix self :
  lower backup_level ∉ backup_levels →
  backup backup_level backup_prefix self
  = Raise (SDKException "Subclient" "103") self.
Proof.
  intros Hbad. unfold backup.
  rewrite bool_decide_eq_false_2 by exact Hbad. reflexivity.
Qed.

Lemma backup_without_prefix backup_level self :
  lower backup_level ∈ backup_levels →
  backup backup_level None self
  = Call (Subclient_backup (lower backup_level)) self Return.
Proof.
  intros Hok. unfold backup.
  rewrite bool_decide_eq_true_2 by exact Hok. reflexivity.
Qed.

Lemma backup_with_prefix backup_level backup_prefix self :
  lower backup_level ∈ backup_levels →
  backup backup_level (Some backup_prefix) self
  = (request_json ← _backup_request_json (lower backup_level) backup_prefix;
     url ← service "CREATE_TASK";
     '(flag, response) ← call (make_request "POST" url request_json);
     call (_process_backup_response flag response)) self.
Proof.
  intros Hok. unfold backup.
  rewrite bool_decide_eq_true_2 by exact Hok. reflexivity.
Qed.

Lemma run_single_call {R} (h : Handler) (c : Cmd R) self :
  trace (run h (Call c self Return)) = [Called c self].
Proof. simpl. destruct (h R c self) as [[a|e] self']; reflexivity. Qed.

(** C1. A level whose lowercase form is one of full, incremental and
    differential passes the check: the first thing [backup] does is a
    call to a collaborator in the untouched state (the base-class backup
    without a prefix, the request envelope with one). Every other level
    ends the call at once with [SDKException('Subclient', '103')]: the
    program is that single raise, so whatever the collaborators are, none
    of them is called, neither the transport nor the envelope builder. *)
Theorem backup_level_validation
    (backup_level : string) (backup_prefix : option string)
    (self : PostgresSubclient) :
  (lower backup_level ∈ backup_levels →
     match backup_prefix with
     | None =>
         backup backup_level backup_prefix self
         = Call (Subclient_backup (lower backup_level)) self Return
     | Some _ =>
         ∃ k, backup backup_level backup_prefix self
              = Call (_backup_json (lower backup_level) false "BEFORE_SYNTH")
                  self k
     end)
  ∧ (lower backup_level ∉ backup_levels →
       backup backup_level backup_prefix self
       = Raise (SDKException "Subclient" "103") self
       ∧ ∀ h : Handler,
           trace (run h (backup backup_level backup_prefix self)) = []).
Proof.
  split.
  - intros Hok. destruct backup_prefix as [prefix|].
    + rewrite backup_with_prefix by exact Hok. eexists. reflexivity.
    + by apply backup_without_prefix.
  - intros Hbad. rewrite backup_rejected by exact Hbad. by split.
Qed.

Lemma backup_level_validation_witness :
  (lower "Incremental" ∈ backup_levels
   ∧ backup "Incremental" None sample_subclient
     = Call (Subclient_backup "incremental") sample_subclient Return)
  ∧ ((lower "transaction" ∉ backup_levels)
     ∧ backup "transaction" (Some "nightly") sample_subclient
       = Raise (SDKException "Subclient" "103") sample_subclient).
Proof.
  assert (Hok : lower "Incremental" ∈ backup_levels)
    by (apply (bool_decide_unpack _); vm_compute; exact I).
  assert (Hbad : lower "transaction" ∉ backup_levels)
    by (apply (bool_decide_unpack _); vm_compute; exact I).
  split; split; [exact Hok | | exact Hbad | ].
  - exact (proj1 (backup_level_validation "Incremental" None sample_subclient) Hok).
  - exact (proj1 (proj2 (backup_level_validation "transaction" (Some "nightly")
                           sample_subclient) Hbad)).
Defined.

(** C6. With a valid level and no prefix, [backup] is exactly one call
    of the base-class [backup] with the lowercased level as its only
    argument, and its result is what that call returns: against any
    collaborators the trace holds that call alone, so neither the
    envelope builder behind the prefixed request nor the transport is
    called by this method. *)
Theorem backup_without_prefix_delegates
    (backup_level : string) (self : PostgresSubclient) :
  lower backup_level ∈ backup_levels →
  backup backup_level None self
  = Call (Subclient_backup (lower backup_level)) self Return
  ∧ ∀ h : Handler,
      trace (run h (backup backup_level None self))
      = [Called (Subclient_backup (lower backup_level)) self].
Proof.
  intros Hok. rewrite backup_without_prefix by exact Hok.
  split; [reflexivity|]. intros h. apply run_single_call.
Qed.

Lemma backup_without_prefix_delegates_witness :
  lower "FULL" ∈ backup_levels
  ∧ backup "FULL" None sample_subclient
    = Call (Subclient_backup "full") sample_subclient Return.
Proof.
  assert (Hok : lower "FULL" ∈ backup_levels)
    by (apply (bool_decide_unpack _); vm_compute; exact I).
  split; [exact Hok|].
  exact (proj1 (backup_without_prefix_delegates "FULL" sample_subclient Hok)).
Defined.

(** Reading the backup-options block back after the in-place update. *)
Lemma update_backupOpts_read request_json (opts other : gmap string PyVal) :
  backupOpts request_json = Ok (PyDict opts) →
  ∃ doc, update_backupOpts request_json other = Ok doc
         ∧ backupOpts doc = Ok (PyDict (other ∪ opts)).
Proof.
  unfold backupOpts, update_backupOpts. intros Hpath.
  destruct request_json as [| | | | |d0]; try done. cbn in *.
  destruct (d0 !! "taskInfo") as [[| | | | |d1]|]; try done. cbn in *.
  destruct (d1 !! "subTasks") as [[| | |s|[|[| | | | |d2] l]|]|];
    try done; cbn in *.
  { destruct (String.get 0 s); done. }
  destruct (d2 !! "options") as [[| | | | |d3]|]; try done. cbn in *.
  destruct (d3 !! "backupOpts") as [[| | | | |d4]|] eqn:H4; try done.
  cbn in *. injection Hpath as ->.
  eexists. split; [reflexivity|]. cbn.
  rewrite lookup_insert_eq. cbn. rewrite lookup_insert_eq. cbn.
  rewrite lookup_insert_eq. cbn. by rewrite lookup_insert_eq.
Qed.

(** C5 (as amended). With a valid level and a prefix, [backup] first
    asks the base class for the request envelope with the lowercased
    level, the flag [False] and the tag "BEFORE_SYNTH". For every
    envelope that has a backup-options dict at
    taskInfo.subTasks[0].options.backupOpts, the document then posted to
    the CREATE_TASK service has at that place the same dict with the
    entry 'hanaOptions' set to the dict {'backupPrefix': prefix}; the
    answer of the transport goes to the response processing. *)
Theorem backup_with_prefix_request
    (backup_level backup_prefix : string) (self : PostgresSubclient) :
  lower backup_level ∈ backup_levels →
  ∃ k,
    backup backup_level (Some backup_prefix) self
    = Call (_backup_json (lower backup_level) false "BEFORE_SYNTH") self k
    ∧ ∀ (request_json : PyVal) (self1 : PostgresSubclient)
        (opts : gmap string PyVal) (url : string),
        backupOpts request_json = Ok (PyDict opts) →
        _services (_commcell_object self1) !! "CREATE_TASK" = Some url →
        ∃ doc k',
          k request_json self1 = Call (make_request "POST" url doc) self1 k'
          ∧ backupOpts doc
            = Ok (PyDict
                    (<["hanaOptions" :=
                         PyDict {[ "backupPrefix" := PyStr backup_prefix ]}]>
                       opts))
          ∧ ∀ flag response self2,
              k' (flag, response) self2
              = Call (_process_backup_response flag response) self2 Return.
Proof.
  intros Hok. rewrite backup_with_prefix by exact Hok.
  unfold service. prog_unfold _backup_request_json.
  eexists. split; [reflexivity|].
  intros request_json self1 opts url Hpath Hurl. cbn.
  destruct (update_backupOpts_read request_json opts
              {[ "hanaOptions" :=
                   PyDict {[ "backupPrefix" := PyStr (str backup_prefix) ]} ]}
              Hpath) as (doc & Hupdate & Hread).
  rewrite Hupdate. cbn. rewrite Hurl. cbn.
  exists doc. eexists. split; [reflexivity|].
  split; [|reflexivity].
  rewrite Hread. by rewrite insert_union_singleton_l.
Qed.

Lemma backup_with_prefix_request_witness :
  ∃ k doc k',
    backup "full" (Some "nightly") sample_subclient
    = Call (_backup_json "full" false "BEFORE_SYNTH") sample_subclient k
    ∧ k (sample_envelope "full" false "BEFORE_SYNTH") sample_subclient
      = Call (make_request "POST" "https://cs/webconsole/api/CreateTask" doc)
          sample_subclient k'
    ∧ ∃ opts, backupOpts doc = Ok (PyDict opts)
              ∧ opts !! "hanaOptions"
                = Some (PyDict {[ "backupPrefix" := PyStr "nightly" ]}).
Proof.
  assert (Hok : lower "full" ∈ backup_levels)
    by (apply (bool_decide_unpack _); vm_compute; exact I).
  destruct (backup_with_prefix_request "full" "nightly" sample_subclient Hok)
    as (k & Hcall & Hk).
  destruct (Hk (sample_envelope "full" false "BEFORE_SYNTH") sample_subclient
              _ _ eq_refl eq_refl) as (doc & k' & Hpost & Hopts & _).
  exists k, doc, k'. split; [exact Hcall|]. split; [exact Hpost|].
  eexists. split; [exact Hopts|]. apply lookup_insert_eq.
Defined.

(** C5 as stated fails: run against collaborators whose envelope has the
    usual backup options, [backup("full", "nightly")] posts one
    document, and the dict at taskInfo.subTasks[0].options.backupOpts of
    that document has no entry 'backupPrefix'; the prefix sits one level
    down, in the dict under 'hanaOptions'. *)
Lemma backup_prefix_not_an_entry_of_backupOpts :
  ∃ (doc : PyVal) (opts : gmap string PyVal),
    sent_documents
      (trace (run sample_handler
                (backup "full" (Some "nightly") sample_subclient)))
    = [doc]
    ∧ backupOpts doc = Ok (PyDict opts)
    ∧ opts !! "backupPrefix" = None
    ∧ opts !! "backupPrefix" ≠ Some (PyStr "nightly")
    ∧ opts !! "hanaOptions"
      = Some (PyDict {[ "backupPrefix" := PyStr "nightly" ]}).
Proof.
  do 2 eexists.
  split; [vm_compute; reflexivity|].
  split; [vm_compute; reflexivity|].
  split; [vm_compute; reflexivity|].
  split; [vm_compute; discriminate|].
  vm_compute; reflexivity.
Qed.

(** ** restore_postgres_server *)

Section Restore.

Context (database_list dest_client_name dest_instance_name : PyVal).
Context (copy_precedence from_time to_time clone_env clone_options : PyVal).
Context (self : PostgresSubclient).

Lemma restore_postgres_server_call :
  let backup_set_object := _backupset_object self in
  let instance_object := _instance_object backup_set_object in
  let fs_based :=
    String.eqb (lower (backupset_name backup_set_object)) "fsbasedbackupset" in
  restore_postgres_server database_list dest_client_name dest_instance_name
    copy_precedence from_time to_time clone_env clone_options self
  = Call (restore_in_place
            (if fs_based then PyList [PyStr "/data"] else database_list)
            (or_default dest_client_name
               (client_name (_client_object (_agent_object instance_object))))
            (or_default dest_instance_name (instance_name instance_object))
            (backupset_name backup_set_object) fs_based
            copy_precedence from_time to_time clone_env clone_options)
      (set__restore_association (_subClientEntity self) self)
      Return.
Proof.
  intros. subst fs_based. prog_unfold restore_postgres_server.
  fold backup_set_object.
  destruct (String.eqb _ _); reflexivity.
Qed.

(** C3. When the lowercased name of the owning backupset is
    "fsbasedbackupset", the in-place restore of the instance is called
    with the database list ["/data"], whatever list the caller gave, and
    with the backupset flag [True]; otherwise it is called with the
    caller's list as given and the flag [False]. *)
Theorem restore_database_list_by_backupset :
  let name := backupset_name (_backupset_object self) in
  ∃ dest_client dest_instance self',
    (lower name = "fsbasedbackupset" →
       restore_postgres_server database_list dest_client_name
         dest_instance_name copy_precedence from_time to_time clone_env
         clone_options self
       = Call (restore_in_place (PyList [PyStr "/data"]) dest_client
                 dest_instance name true
                 copy_precedence from_time to_time clone_env clone_options)
           self' Return)
    ∧ (lower name ≠ "fsbasedbackupset" →
         restore_postgres_server database_list dest_client_name
           dest_instance_name copy_precedence from_time to_time clone_env
           clone_options self
         = Call (restore_in_place database_list dest_client
                   dest_instance name false
                   copy_precedence from_time to_time clone_env clone_options)
             self' Return).
Proof.
  intros name. do 3 eexists. rewrite restore_postgres_server_call.
  fold name. split; intros Hname.
  - apply String.eqb_eq in Hname. rewrite Hname. reflexivity.
  - apply String.eqb_neq in Hname. rewrite Hname. reflexivity.
Qed.

(** C4. The destination client passed to the in-place restore is the
    caller's [dest_client_name], or the name of the client that owns the
    current instance when the caller passed [None]; the destination
    instance is the caller's [dest_instance_name], or the name of the
    current instance when the caller passed [None]. *)
Theorem restore_destination_defaults :
  let instance_object := _instance_object (_backupset_object self) in
  ∃ databases dest_client dest_instance flag self',
    restore_postgres_server database_list dest_client_name dest_instance_name
      copy_precedence from_time to_time clone_env clone_options self
    = Call (restore_in_place databases dest_client dest_instance
              (backupset_name (_backupset_object self)) flag
              copy_precedence from_time to_time clone_env clone_options)
        self' Return
    ∧ (dest_client_name = PyNone →
         dest_client
         = PyStr (client_name (_client_object (_agent_object instance_object))))
    ∧ (dest_client_name ≠ PyNone → dest_client = dest_client_name)
    ∧ (dest_instance_name = PyNone →
         dest_instance = PyStr (instance_name instance_object))
    ∧ (dest_instance_name ≠ PyNone → dest_instance = dest_instance_name).
Proof.
  intros instance_object. do 5 eexists.
  split; [apply restore_postgres_server_call|].
  fold instance_object. unfold or_default.
  repeat split.
  - by intros ->.
  - intros Hgiven. by destruct dest_client_name.
  - by intros ->.
  - intros Hgiven. by destruct dest_instance_name.
Qed.

(** C9. Every call of [restore_postgres_server] hands the in-place
    restore an object graph in which the [_restore_association] of the
    owning instance is this subclient's [_subClientEntity], and in which
    nothing else has changed: the assignment happens before the call, on
    the one instance object the backupset holds, whatever the arguments
    and whatever the backupset. *)
Theorem restore_sets_restore_association :
  ∃ databases dest_client dest_instance flag,
    let self' := set__restore_association (_subClientEntity self) self in
    restore_postgres_server database_list dest_client_name dest_instance_name
      copy_precedence from_time to_time clone_env clone_options self
    = Call (restore_in_place databases dest_client dest_instance
              (backupset_name (_backupset_object self)) flag
              copy_precedence from_time to_time clone_env clone_options)
        self' Return
    ∧ _restore_association (_instance_object (_backupset_object self'))
      = _subClientEntity self.
Proof.
  do 4 eexists. split; [apply restore_postgres_server_call | reflexivity].
Qed.

End Restore.

Lemma restore_database_list_by_backupset_witness :
  (∃ dest_client dest_instance self',
     restore_postgres_server (PyList [PyStr "mydb"]) PyNone PyNone
       PyNone PyNone PyNone (PyBool false) PyNone fsbased_subclient
     = Call (restore_in_place (PyList [PyStr "/data"]) dest_client
               dest_instance "FSBasedBackupSet" true
               PyNone PyNone PyNone (PyBool false) PyNone)
         self' Return)
  ∧ (∃ dest_client dest_instance self',
       restore_postgres_server (PyList [PyStr "mydb"]) PyNone PyNone
         PyNone PyNone PyNone (PyBool false) PyNone kelvin_subclient
       = Call (restore_in_place (PyList [PyStr "/data"]) dest_client
                 dest_instance ("FSBasedBac" +:+ kelvin_sign +:+ "upSet") true
                 PyNone PyNone PyNone (PyBool false) PyNone)
           self' Return)
  ∧ (∃ dest_client dest_instance self',
       restore_postgres_server (PyList [PyStr "mydb"]) PyNone PyNone
         PyNone PyNone PyNone (PyBool false) PyNone sample_subclient
       = Call (restore_in_place (PyList [PyStr "mydb"]) dest_client
                 dest_instance "DumpBasedBackupSet" false
                 PyNone PyNone PyNone (PyBool false) PyNone)
           self' Return).
Proof.
  split; [|split].
  - destruct (restore_database_list_by_backupset (PyList [PyStr "mydb"])
                PyNone PyNone PyNone PyNone PyNone (PyBool false) PyNone
                fsbased_subclient) as (dc & di & self' & Hfs & _).
    exists dc, di, self'. apply Hfs. reflexivity.
  - destruct (restore_database_list_by_backupset (PyList [PyStr "mydb"])
                PyNone PyNone PyNone PyNone PyNone (PyBool false) PyNone
                kelvin_subclient) as (dc & di & self' & Hfs & _).
    exists dc, di, self'. apply Hfs. reflexivity.
  - destruct (restore_database_list_by_backupset (PyList [PyStr "mydb"])
                PyNone PyNone PyNone PyNone PyNone (PyBool false) PyNone
                sample_subclient) as (dc & di & self' & _ & Hother).
    exists dc, di, self'. apply Hother. vm_compute. discriminate.
Defined.

Lemma restore_destination_defaults_witness :
  ∃ databases flag self',
    restore_postgres_server PyNone PyNone PyNone
      PyNone PyNone PyNone (PyBool false) PyNone sample_subclient
    = Call (restore_in_place databases (PyStr "client1") (PyStr "pg1")
              "DumpBasedBackupSet" flag
              PyNone PyNone PyNone (PyBool false) PyNone)
        self' Return.
Proof.
  destruct (restore_destination_defaults PyNone PyNone PyNone
              PyNone PyNone PyNone (PyBool false) PyNone sample_subclient)
    as (db & dc & di & flag & self' & Hcall & Hclient & _ & Hinstance & _).
  exists db, flag, self'.
  rewrite Hcall, (Hclient eq_refl), (Hinstance eq_refl). reflexivity.
Defined.

(** The restore of the sample subclient against collaborators that
    succeed: one call, made with the entity already attached. *)
Example restore_sample_trace :
  trace (run sample_handler
           (restore_postgres_server (PyList [PyStr "sales"]) PyNone PyNone
              PyNone PyNone PyNone (PyBool false) PyNone sample_subclient))
  = [Called
       (restore_in_place (PyList [PyStr "sales"]) (PyStr "client1")
          (PyStr "pg1") "DumpBasedBackupSet" false
          PyNone PyNone PyNone (PyBool false) PyNone)
       (set__restore_association sample_entity sample_subclient)].
Proof. reflexivity. Qed.

(** ** _get_subclient_properties *)

Lemma _get_subclient_properties_call self :
  ∃ k, _get_subclient_properties self
       = Call Subclient__get_subclient_properties self k
       ∧ ∀ u refreshed,
           k u refreshed = Return tt (with_postgres_properties refreshed).
Proof.
  prog_unfold _get_subclient_properties. eexists. split; [reflexivity|].
  intros [] refreshed. unfold with_postgres_properties. cbn.
  destruct (_subclient_properties refreshed !! "postgreSQLSubclientProp")
    as [v|] eqn:Hkey.
  - rewrite bool_decide_eq_true_2 by eauto. cbn. by rewrite Hkey.
  - rewrite bool_decide_eq_false_2 by (intros [? ?]; congruence).
    cbn. by rewrite lookup_insert_eq.
Qed.

(** C8. [_get_subclient_properties] first runs the base-class refresh.
    Whatever object that leaves behind, the method then returns without
    raising, and afterwards the properties mapping has the key
    'postgreSQLSubclientProp' and [_postgres_properties] is the value
    under it. When the refreshed mapping lacked the key, the mapping is
    the refreshed one with the key set to an empty dict; when it had the
    key, the mapping is untouched. *)
Theorem refresh_sets_postgres_properties (self : PostgresSubclient) :
  ∃ k, _get_subclient_properties self
       = Call Subclient__get_subclient_properties self k
       ∧ ∀ (u : unit) (refreshed : PostgresSubclient),
           ∃ self',
             k u refreshed = Return tt self'
             ∧ _subclient_properties self' !! "postgreSQLSubclientProp"
               = Some (_postgres_properties self')
             ∧ (_subclient_properties refreshed !! "postgreSQLSubclientProp"
                = None →
                _subclient_properties self'
                = <["postgreSQLSubclientProp" := PyDict ∅]>
                    (_subclient_properties refreshed)
                ∧ _postgres_properties self' = PyDict ∅)
             ∧ (is_Some (_subclient_properties refreshed
                         !! "postgreSQLSubclientProp") →
                _subclient_properties self' = _subclient_properties refreshed).
Proof.
  destruct (_get_subclient_properties_call self) as (k & Hcall & Hk).
  exists k. split; [exact Hcall|]. intros u refreshed.
  exists (with_postgres_properties refreshed).
  split; [apply Hk|]. unfold with_postgres_properties.
  destruct (_subclient_properties refreshed !! "postgreSQLSubclientProp")
    as [v|] eqn:Hkey; cbn.
  - split; [exact Hkey|]. split; [intros; congruence | reflexivity].
  - split; [apply lookup_insert_eq|]. split; [done | by intros [? ?]].
Qed.

Lemma refresh_sets_postgres_properties_witness :
  ∃ k, _get_subclient_properties sample_subclient
       = Call Subclient__get_subclient_properties sample_subclient k
       ∧ ∃ self',
           k tt sample_subclient = Return tt self'
           ∧ _subclient_properties self'
             = <["postgreSQLSubclientProp" := PyDict ∅]>
                 (_subclient_properties sample_subclient)
           ∧ _postgres_properties self' = PyDict ∅.
Proof.
  destruct (refresh_sets_postgres_properties sample_subclient)
    as (k & Hcall & Hk).
  exists k. split; [exact Hcall|].
  destruct (Hk tt sample_subclient) as (self' & Hret & _ & Hmissing & _).
  exists self'. split; [exact Hret|]. apply Hmissing. reflexivity.
Defined.

(** ** content *)

Lemma nonempty_dict_lookup (d : gmap string PyVal) k v :
  d !! k = Some v → bool_decide (size d = 0) = false.
Proof.
  intros Hk. apply bool_decide_eq_false_2.
  intros Hsize. apply map_size_empty_inv in Hsize. by subst.
Qed.

(** One turn of the loop on a well-formed entry appends its name without
    its leading slashes. *)
Lemma content_loop_well_formed database name items database_list :
  database_name database = Some name →
  content_loop (database :: items) database_list
  = content_loop items (database_list ++ [lstrip "/" name]).
Proof.
  unfold database_name. intros Hname.
  destruct database as [| | | | |d]; try done.
  destruct (d !! "postgreSQLContent") as [[| | | | |pg]|] eqn:Hpg; try done.
  destruct (pg !! "databaseName") as [[| | |s| |]|] eqn:Hn; try done.
  destruct (String.eqb s "") eqn:Hs; [done|]. injection Hname as <-.
  cbn [content_loop]. unfold get, getitem. cbn. rewrite Hpg. cbn.
  rewrite (nonempty_dict_lookup pg _ _ Hn), Hn. cbn.
  rewrite Hs. reflexivity.
Qed.

(** One turn of the loop on a malformed entry changes nothing. *)
Lemma content_loop_malformed database items database_list :
  malformed database = true →
  content_loop (database :: items) database_list
  = content_loop items database_list.
Proof.
  unfold malformed. intros Hmal.
  destruct database as [| | | | |d]; try done.
  cbn [content_loop]. unfold get, getitem. cbn.
  destruct (d !! "postgreSQLContent") as [[| | | | |pg]|] eqn:Hpg;
    try done; cbn.
  destruct (bool_decide (size pg = 0)); [done|]. cbn.
  destruct (pg !! "databaseName") as [[| | |s| |]|] eqn:Hn; try done; cbn.
  by rewrite Hmal.
Qed.

Lemma malformed_not_well_formed database :
  malformed database = true → database_name database = None.
Proof.
  unfold malformed, database_name. intros Hmal.
  repeat case_match; simplify_eq; done.
Qed.

(** The loop over entries that are each well formed or malformed. *)
Lemma content_loop_classified (items : list PyVal)
    (database_list : list string) :
  Forall (λ database, malformed database = true ∨ well_formed database)
    items →
  content_loop items database_list
  = Ok (database_list ++ (lstrip "/" <$> omap database_name items))%list.
Proof.
  intros Hitems. revert database_list.
  induction Hitems as [|database items Hhead _ IH]; intros database_list.
  - cbn. by rewrite app_nil_r.
  - destruct Hhead as [Hmal|[name Hname]].
    + rewrite content_loop_malformed by exact Hmal.
      cbn [omap list_omap]. rewrite (malformed_not_well_formed _ Hmal).
      apply IH.
    + rewrite (content_loop_well_formed _ name) by exact Hname.
      cbn [omap list_omap]. rewrite Hname. rewrite IH.
      cbn. by rewrite <- app_assoc.
Qed.

(** Malformed entries can be dropped from the items without changing
    what the loop computes, whatever the other items are. *)
Lemma content_loop_drop_malformed items database_list :
  content_loop items database_list
  = content_loop (filter (λ database, malformed database = false) items)
      database_list.
Proof.
  revert database_list. induction items as [|database items IH];
    intros database_list; [done|].
  destruct (malformed database) eqn:Hmal.
  - rewrite content_loop_malformed by exact Hmal.
    rewrite filter_cons_False by congruence. apply IH.
  - rewrite filter_cons_True by exact Hmal.
    cbn [content_loop].
    destruct (get database "postgreSQLContent") as [c|]; cbn; [|done].
    destruct (truthy c); [|apply IH].
    destruct (getitem database "postgreSQLContent") as [pg|]; cbn; [|done].
    destruct (get pg "databaseName") as [n|]; cbn; [|done].
    destruct (truthy n); [|apply IH].
    destruct (getitem pg "databaseName") as [name|]; cbn; [|done].
    destruct (py_lstrip name "/"); cbn; [apply IH|done].
Qed.

(** [content] on a non-default subclient whose raw properties hold a
    list under 'content'. *)
Lemma content_of_list self (raw : list PyVal) :
  is_default_subclient self = false →
  _subclient_properties self !! "content" = Some (PyList raw) →
  content self
  = match content_loop raw [] with
    | Ok database_list =>
        Return (Some database_list) (set__content (PyList raw) self)
    | Err e => Raise e (set__content (PyList raw) self)
    end.
Proof.
  intros Hdefault Hraw. prog_unfold content. cbn.
  rewrite Hdefault. cbn. rewrite Hraw. cbn.
  destruct (content_loop raw []); reflexivity.
Qed.

(** [content] when nothing is read from the raw properties. *)
Lemma content_of_nothing self :
  is_default_subclient self = true
  ∨ _subclient_properties self !! "content" = None →
  content self = Return None (set__content PyNone self).
Proof.
  intros Hnothing. prog_unfold content. cbn.
  destruct (is_default_subclient self); cbn; [reflexivity|].
  destruct Hnothing as [|Hmissing]; [done|]. by rewrite Hmissing.
Qed.

(** [content] on a non-default subclient whose raw properties hold any
    value under 'content'. *)
Lemma content_of_value self (v : PyVal) :
  is_default_subclient self = false →
  _subclient_properties self !! "content" = Some v →
  content self
  = match v with
    | PyNone => Return None (set__content PyNone self)
    | _ =>
        match iter v with
        | Ok items =>
            match content_loop items [] with
            | Ok database_list =>
                Return (Some database_list) (set__content v self)
            | Err e => Raise e (set__content v self)
            end
        | Err e => Raise e (set__content v self)
        end
    end.
Proof.
  intros Hdefault Hraw. prog_unfold content. cbn.
  rewrite Hdefault. cbn. rewrite Hraw. cbn.
  destruct v; cbn; try reflexivity;
    destruct (content_loop _ []); reflexivity.
Qed.

(** One turn of the loop that does not raise either skips the entry or
    appends one name. *)
Lemma content_loop_step database items database_list names :
  content_loop (database :: items) database_list = Ok names →
  content_loop items database_list = Ok names
  ∨ ∃ name, content_loop items (database_list ++ [name]) = Ok names.
Proof.
  cbn [content_loop].
  destruct (get database "postgreSQLContent") as [c|]; cbn; [|done].
  destruct (truthy c); [|by left].
  destruct (getitem database "postgreSQLContent") as [pg|]; cbn; [|done].
  destruct (get pg "databaseName") as [n|]; cbn; [|done].
  destruct (truthy n); [|by left].
  destruct (getitem pg "databaseName") as [name|]; cbn; [|done].
  destruct (py_lstrip name "/") as [stripped|]; cbn; [|done].
  intros Hrest. right. by exists stripped.
Qed.

(** The loop never drops a name, and it appends one for every
    well-formed entry. *)
Lemma content_loop_grows (items : list PyVal) (database_list names : list string) :
  content_loop items database_list = Ok names →
  (length database_list ≤ length names)%nat
  ∧ (length names = length database_list →
     Forall (λ database, ¬ well_formed database) items).
Proof.
  revert database_list.
  induction items as [|database items IH]; intros database_list Hloop.
  - cbn in Hloop. injection Hloop as <-. split; [lia|]. by constructor.
  - destruct (database_name database) as [name|] eqn:Hname.
    + rewrite (content_loop_well_formed _ name) in Hloop by exact Hname.
      apply IH in Hloop as [Hle _]. rewrite length_app in Hle. cbn in Hle.
      split; lia.
    + assert (Hnot : ¬ well_formed database)
        by (unfold well_formed; rewrite Hname; by intros [? ?]).
      apply content_loop_step in Hloop as [Hskip|[name Happend]].
      * apply IH in Hskip as [Hle Hnone]. split; [exact Hle|].
        intros Hlen. constructor; [exact Hnot | by apply Hnone].
      * apply IH in Happend as [Hle _]. rewrite length_app in Hle.
        cbn in Hle. split; lia.
Qed.

Lemma length_omap_database_name (items : list PyVal) :
  length (omap database_name items) = length (filter well_formed items).
Proof.
  induction items as [|database items IH]; [done|].
  cbn [omap list_omap]. unfold well_formed in *.
  destruct (database_name database) as [name|] eqn:Hname.
  - rewrite filter_cons_True by (rewrite Hname; eauto). cbn. by rewrite IH.
  - rewrite filter_cons_False by (rewrite Hname; by intros [? ?]). exact IH.
Qed.

Lemma filter_not_malformed_well_formed (items : list PyVal) :
  Forall (λ database, malformed database = true ∨ well_formed database)
    items →
  filter (λ database, malformed database = false) items
  = filter well_formed items.
Proof.
  induction 1 as [|database items Hhead _ IH]; [done|].
  destruct Hhead as [Hmal|Hwf].
  - rewrite filter_cons_False by congruence.
    rewrite filter_cons_False; [exact IH|].
    unfold well_formed. rewrite (malformed_not_well_formed _ Hmal).
    by intros [? ?].
  - rewrite (filter_cons_True well_formed) by exact Hwf.
    rewrite filter_cons_True; [by rewrite IH|].
    destruct (malformed database) eqn:Hmal; [|done].
    destruct Hwf as [name Hname].
    rewrite (malformed_not_well_formed _ Hmal) in Hname. done.
Qed.

(** ** The loop of content, entry by entry *)

Lemma content_loop_ill_typed database items database_list :
  ill_typed database = true →
  content_loop (database :: items) database_list = Err AttributeError.
Proof.
  unfold ill_typed. intros Hill. cbn [content_loop]. unfold get, getitem.
  destruct database as [| | | | |d]; try done. cbn.
  destruct (d !! "postgreSQLContent") as [c|] eqn:Hc; [|done]. cbn.
  destruct c as [| | | | |pg]; cbn in *; try done; try (by rewrite Hill).
  destruct (pg !! "databaseName") as [n|] eqn:Hn; [|done].
  rewrite (nonempty_dict_lookup pg _ _ Hn). cbn.
  destruct n; cbn in *; try done; by rewrite Hill.
Qed.

Lemma content_loop_skipped database items database_list :
  ill_typed database = false →
  database_name database = None →
  content_loop (database :: items) database_list
  = content_loop items database_list.
Proof.
  unfold ill_typed, database_name. intros Hill Hname.
  cbn [content_loop]. unfold get, getitem.
  destruct database as [| | | | |d]; try done. cbn.
  destruct (d !! "postgreSQLContent") as [c|] eqn:Hc; [|done]. cbn.
  destruct c as [| | | | |pg]; cbn in *; try done; try (by rewrite Hill).
  destruct (bool_decide (size pg = 0)); [done|]. cbn.
  destruct (pg !! "databaseName") as [n|] eqn:Hn; [|done]. cbn.
  destruct n as [| | |s| |]; cbn in *; try done; try (by rewrite Hill).
  destruct (String.eqb s ""); done.
Qed.

Lemma well_formed_not_ill_typed database name :
  database_name database = Some name → ill_typed database = false.
Proof.
  unfold ill_typed, database_name. intros Hname.
  repeat case_match; simplify_eq; done.
Qed.

Lemma content_loop_outcome (items : list PyVal) (database_list : list string) :
  content_loop items database_list
  = if existsb ill_typed items then Err AttributeError
    else Ok (database_list ++ (lstrip "/" <$> omap database_name items))%list.
Proof.
  revert database_list.
  induction items as [|database items IH]; intros database_list.
  - cbn. by rewrite app_nil_r.
  - cbn [existsb omap list_omap].
    destruct (ill_typed database) eqn:Hill.
    + by rewrite content_loop_ill_typed.
    + destruct (database_name database) as [name|] eqn:Hname.
      * rewrite (content_loop_well_formed _ name) by exact Hname.
        rewrite IH. cbn. destruct (existsb ill_typed items); [done|].
        by rewrite <- app_assoc.
      * rewrite content_loop_skipped by assumption. by rewrite IH.
Qed.

Lemma existsb_ill_typed_strings (keys : list string) :
  keys ≠ [] → existsb ill_typed (PyStr <$> keys) = true.
Proof. by destruct keys. Qed.

Lemma omap_database_name_kept (items : list PyVal) :
  omap database_name (filter (λ database, malformed database = false) items)
  = omap database_name items.
Proof.
  induction items as [|database items IH]; [done|].
  destruct (malformed database) eqn:Hmal.
  - rewrite filter_cons_False by congruence. cbn [omap list_omap].
    by rewrite (malformed_not_well_formed _ Hmal).
  - rewrite filter_cons_True by exact Hmal. cbn [omap list_omap].
    by rewrite IH.
Qed.

Lemma sample_raw_content_classified :
  Forall (λ database, malformed database = true ∨ well_formed database)
    sample_raw_content.
Proof. apply (bool_decide_unpack _). vm_compute. exact I. Defined.

(** [content] on a list of entries that are each well formed or
    malformed. *)
Lemma content_of_classified self (raw : list PyVal) :
  is_default_subclient self = false →
  _subclient_properties self !! "content" = Some (PyList raw) →
  Forall (λ database, malformed database = true ∨ well_formed database) raw →
  content self
  = Return (Some (lstrip "/" <$> omap database_name raw))
      (set__content (PyList raw) self).
Proof.
  intros Hdefault Hraw Hentries.
  rewrite (content_of_list self raw) by assumption.
  by rewrite content_loop_classified by exact Hentries.
Qed.

(** C2. On a non-default subclient whose raw 'content' is a list whose
    entries are each well formed or malformed, [content] returns the
    database names of the well-formed entries, each without its leading
    slashes, in the order of the raw entries: as many names as there are
    well-formed entries, and as many as there are entries when all of
    them are well formed. *)
Theorem content_names_in_order (self : PostgresSubclient) (raw : list PyVal) :
  is_default_subclient self = false →
  _subclient_properties self !! "content" = Some (PyList raw) →
  Forall (λ database, malformed database = true ∨ well_formed database) raw →
  ∃ names : list string,
    content self = Return (Some names) (set__content (PyList raw) self)
    ∧ names = lstrip "/" <$> omap database_name raw
    ∧ length names = length (filter well_formed raw)
    ∧ (Forall well_formed raw → length names = length raw).
Proof.
  intros Hdefault Hraw Hentries.
  exists (lstrip "/" <$> omap database_name raw).
  split; [by apply content_of_classified|]. split; [reflexivity|].
  rewrite length_fmap, length_omap_database_name.
  split; [reflexivity|]. intros Hall.
  f_equal. clear -Hall. induction Hall as [|database items Hwf _ IH]; [done|].
  rewrite filter_cons_True by exact Hwf. by rewrite IH.
Qed.

Lemma content_names_in_order_witness :
  content sample_subclient
  = Return (Some ["postgres"; "sales"; "hr/2024"])
      (set__content (PyList sample_raw_content) sample_subclient).
Proof.
  destruct (content_names_in_order sample_subclient sample_raw_content
              eq_refl eq_refl sample_raw_content_classified)
    as (names & Hcontent & Hnames & _).
  rewrite Hcontent, Hnames. reflexivity.
Defined.

(** C7 (as amended). On a non-default subclient whose raw 'content' is
    a list, malformed entries do not show in what [content] gives: it
    gives the same as on the list without them, whatever the other
    entries are. When no entry is ill typed, that is when every entry is
    a dict, what it holds under 'postgreSQLContent' is a dict or false,
    and what that dict holds under 'databaseName' is a string or false,
    [content] does not raise and returns the names of the entries that
    carry one, all of them among the entries that are not malformed;
    when every entry is well formed or malformed, that is one name for
    each entry that is not malformed. With an ill-typed entry,
    [content] raises [AttributeError]. *)
Theorem content_excludes_malformed (self : PostgresSubclient) (raw : list PyVal) :
  is_default_subclient self = false →
  _subclient_properties self !! "content" = Some (PyList raw) →
  let kept := filter (λ database, malformed database = false) raw in
  (∀ h : Handler,
     result (run h (content self))
     = result (run h (content (with_raw_content kept self))))
  ∧ (existsb ill_typed raw = false →
     ∃ names : list string,
       content self = Return (Some names) (set__content (PyList raw) self)
       ∧ names = lstrip "/" <$> omap database_name kept
       ∧ length names = length (filter well_formed raw)
       ∧ (Forall (λ database,
                    malformed database = true ∨ well_formed database) raw →
          length names = length kept))
  ∧ (existsb ill_typed raw = true →
     content self = Raise AttributeError (set__content (PyList raw) self)).
Proof.
  intros Hdefault Hraw kept. split; [|split].
  - intros h. rewrite (content_of_list self raw) by assumption.
    rewrite (content_of_list (with_raw_content kept self) kept);
      [|exact Hdefault|apply lookup_insert_eq].
    rewrite (content_loop_drop_malformed raw). fold kept.
    destruct (content_loop kept []); reflexivity.
  - intros Htyped.
    exists (lstrip "/" <$> omap database_name raw).
    rewrite (content_of_list self raw) by assumption.
    rewrite content_loop_outcome, Htyped. cbn.
    split; [reflexivity|]. subst kept.
    split; [by rewrite omap_database_name_kept|].
    rewrite length_fmap, length_omap_database_name.
    split; [reflexivity|]. intros Hentries.
    by rewrite filter_not_malformed_well_formed.
  - intros Hill. rewrite (content_of_list self raw) by assumption.
    by rewrite content_loop_outcome, Hill.
Qed.

Lemma content_excludes_malformed_witness :
  (∀ h : Handler,
     result (run h (content sample_subclient))
     = result (run h (content
         (with_raw_content
            [entry "/postgres"; entry "//sales"; entry "hr/2024"]
            sample_subclient))))
  ∧ (∃ names : list string,
       content sample_subclient
       = Return (Some names)
           (set__content (PyList sample_raw_content) sample_subclient)
       ∧ length names = 3)
  ∧ content string_content_subclient
    = Raise AttributeError
        (set__content (PyList [PyDict {[ "postgreSQLContent" := PyStr "x" ]}])
           string_content_subclient).
Proof.
  destruct (content_excludes_malformed sample_subclient sample_raw_content
              eq_refl eq_refl) as (Hsame & Hok & _).
  split; [exact Hsame|]. split.
  - destruct (Hok eq_refl) as (names & Hcontent & _ & Hlen & _).
    exists names. split; [exact Hcontent|]. rewrite Hlen.
    vm_compute. reflexivity.
  - assert (Hraw : _subclient_properties string_content_subclient !! "content"
                   = Some (PyList [PyDict {[ "postgreSQLContent" := PyStr "x" ]}]))
      by (vm_compute; reflexivity).
    exact (proj2 (proj2 (content_excludes_malformed string_content_subclient
                           _ eq_refl Hraw)) eq_refl).
Defined.

(** C7 as stated fails: the one entry of this content list has the key
    'postgreSQLContent' and no 'databaseName' field under it (a string
    has none), so it is malformed in the words of the claim; [content]
    does not skip it, it raises [AttributeError] when it calls [get] on
    the string. *)
Lemma content_raises_on_string_entry :
  _subclient_properties string_content_subclient !! "content"
  = Some (PyList [PyDict {[ "postgreSQLContent" := PyStr "x" ]}])
  ∧ is_default_subclient string_content_subclient = false
  ∧ database_name (PyDict {[ "postgreSQLContent" := PyStr "x" ]}) = None
  ∧ content string_content_subclient
    = Raise AttributeError
        (set__content (PyList [PyDict {[ "postgreSQLContent" := PyStr "x" ]}])
           string_content_subclient)
  ∧ ∀ h : Handler,
      result (run h (content string_content_subclient)) = Err AttributeError.
Proof.
  split; [vm_compute; reflexivity|]. split; [reflexivity|].
  split; [vm_compute; reflexivity|].
  split; [vm_compute; reflexivity|].
  intros h. vm_compute. reflexivity.
Qed.

(** C10 (as amended). [content] returns [None] when the subclient is
    the default subclient or its raw properties have no 'content' key.
    Whenever it returns the empty list, the subclient is not the default
    one and the raw properties hold under 'content' an empty string, an
    empty dict, or a list that contains no well-formed entry. *)
Theorem content_none_or_empty (self : PostgresSubclient) :
  (is_default_subclient self = true
   ∨ _subclient_properties self !! "content" = None →
   content self = Return None (set__content PyNone self))
  ∧ (∀ self', content self = Return (Some []) self' →
       is_default_subclient self = false
       ∧ ∃ v : PyVal,
           _subclient_properties self !! "content" = Some v
           ∧ (v = PyStr ""
              ∨ v = PyDict ∅
              ∨ ∃ raw : list PyVal,
                  v = PyList raw
                  ∧ Forall (λ database, ¬ well_formed database) raw)).
Proof.
  split; [apply content_of_nothing|].
  intros self' Hempty.
  destruct (is_default_subclient self) eqn:Hdefault.
  { rewrite content_of_nothing in Hempty by (left; exact Hdefault). done. }
  split; [reflexivity|].
  destruct (_subclient_properties self !! "content") as [v|] eqn:Hraw.
  2:{ rewrite content_of_nothing in Hempty by (by right). done. }
  rewrite (content_of_value self v Hdefault Hraw) in Hempty.
  exists v. split; [reflexivity|].
  destruct v as [| | |s|raw|d]; try done; cbn in Hempty.
  - destruct s as [|c s]; [by left|].
    cbn [chars_of] in Hempty.
    rewrite content_loop_ill_typed in Hempty by reflexivity. done.
  - right. right. exists raw. split; [reflexivity|].
    destruct (content_loop raw []) as [names|e] eqn:Hloop; [|done].
    injection Hempty as -> _.
    by apply (content_loop_grows raw [] [] Hloop).
  - right. left. rewrite content_loop_outcome in Hempty.
    destruct (map_to_list d).*1 as [|key keys] eqn:Hkeys.
    + apply fmap_nil_inv in Hkeys.
      by apply map_to_list_empty_iff in Hkeys as ->.
    + rewrite existsb_ill_typed_strings in Hempty by done. done.
Qed.

Lemma content_none_or_empty_witness :
  content fsbased_subclient
  = Return None (set__content PyNone fsbased_subclient)
  ∧ ∃ v : PyVal,
      _subclient_properties malformed_only_subclient !! "content" = Some v
      ∧ (v = PyStr ""
         ∨ v = PyDict ∅
         ∨ ∃ raw : list PyVal,
             v = PyList raw
             ∧ Forall (λ database, ¬ well_formed database) raw).
Proof.
  split.
  - apply (proj1 (content_none_or_empty fsbased_subclient)).
    left. reflexivity.
  - assert (Hempty :
      content malformed_only_subclient
      = Return (Some [])
          (set__content (PyList [PyDict ∅; entry ""])
             malformed_only_subclient))
      by (vm_compute; reflexivity).
    exact (proj2 (proj2 (content_none_or_empty malformed_only_subclient)
                    _ Hempty)).
Defined.

(** C10 as stated fails: with the empty string under 'content', which
    is no list, [content] on a non-default subclient returns the empty
    list. *)
Lemma content_empty_list_without_a_list :
  is_default_subclient empty_string_subclient = false
  ∧ _subclient_properties empty_string_subclient !! "content"
    = Some (PyStr "")
  ∧ (∀ raw : list PyVal, PyStr "" ≠ PyList raw)
  ∧ content empty_string_subclient
    = Return (Some []) (set__content (PyStr "") empty_string_subclient).
Proof.
  split; [reflexivity|]. split; [vm_compute; reflexivity|].
  split; [done|]. vm_compute. reflexivity.
Qed.

(** Outside the two classes of entries the loop raises, as the source
    does: a database name that is not a string has no [lstrip], an entry
    that is not a dict has no [get]. *)
Example content_non_string_name :
  content
    (with_raw_content
       [PyDict {[ "postgreSQLContent" :=
                    PyDict {[ "databaseName" := PyInt 5 ]} ]}]
       sample_subclient)
  = Raise AttributeError
      (set__content
         (PyList [PyDict {[ "postgreSQLContent" :=
                              PyDict {[ "databaseName" := PyInt 5 ]} ]}])
         (with_raw_content
            [PyDict {[ "postgreSQLContent" :=
                         PyDict {[ "databaseName" := PyInt 5 ]} ]}]
            sample_subclient)).
Proof. vm_compute. reflexivity. Qed.

Example content_non_dict_entry :
  ∀ h : Handler,
    result (run h (content
                     (with_raw_content [entry "/sales"; PyStr "hr"]
                        sample_subclient)))
    = Err AttributeError.
Proof. intros h. vm_compute. reflexivity. Qed.

(* ===================================================================== *)
(** * Further properties *)
(* ===================================================================== *)

(** X1. On a non-default subclient whose raw 'content' is a list,
    [content] raises [AttributeError] exactly when some entry is ill
    typed; otherwise it returns the names, without their leading
    slashes, of the entries that carry one, in order. No other exception
    comes out of the loop. *)
Theorem content_list_outcome (self : PostgresSubclient) (raw : list PyVal) :
  is_default_subclient self = false →
  _subclient_properties self !! "content" = Some (PyList raw) →
  content self
  = if existsb ill_typed raw
    then Raise AttributeError (set__content (PyList raw) self)
    else Return (Some (lstrip "/" <$> omap database_name raw))
           (set__content (PyList raw) self).
Proof.
  intros Hdefault Hraw. rewrite (content_of_list self raw) by assumption.
  rewrite content_loop_outcome. by destruct (existsb ill_typed raw).
Qed.

Lemma content_list_outcome_witness :
  content (with_raw_content [entry "/sales"; PyStr "hr"; entry "/x"]
             sample_subclient)
  = Raise AttributeError
      (set__content (PyList [entry "/sales"; PyStr "hr"; entry "/x"])
         (with_raw_content [entry "/sales"; PyStr "hr"; entry "/x"]
            sample_subclient))
  ∧ content sample_subclient
    = Return (Some ["postgres"; "sales"; "hr/2024"])
        (set__content (PyList sample_raw_content) sample_subclient).
Proof.
  split.
  - exact (content_list_outcome
             (with_raw_content [entry "/sales"; PyStr "hr"; entry "/x"]
                sample_subclient)
             [entry "/sales"; PyStr "hr"; entry "/x"] eq_refl eq_refl).
  - exact (content_list_outcome sample_subclient sample_raw_content
             eq_refl eq_refl).
Defined.

Lemma lstrip_no_leading_slash (s : string) : no_leading_slash (lstrip "/" s).
Proof.
  induction s as [|c s IH]; intros rest; [done|].
  cbn. destruct (Ascii.eqb c "/") eqn:Hc; cbn; [apply IH|].
  intros [= -> _]. by rewrite Ascii.eqb_refl in Hc.
Qed.

(** X2. Whatever the raw content is, no name that [content] returns
    begins with a slash. *)
Theorem content_names_no_leading_slash
    (self self' : PostgresSubclient) (names : list string) :
  content self = Return (Some names) self' →
  Forall no_leading_slash names.
Proof.
  intros Hcontent.
  destruct (is_default_subclient self) eqn:Hdefault.
  { rewrite content_of_nothing in Hcontent by (left; exact Hdefault). done. }
  destruct (_subclient_properties self !! "content") as [v|] eqn:Hraw.
  2:{ rewrite content_of_nothing in Hcontent by (by right). done. }
  rewrite (content_of_value self v Hdefault Hraw) in Hcontent.
  assert (∃ items, content_loop items [] = Ok names) as [items Hloop].
  { destruct v; try done; cbn in Hcontent;
      match type of Hcontent with
      | context [content_loop ?l []] =>
          exists l; destruct (content_loop l []); congruence
      end. }
  rewrite content_loop_outcome in Hloop.
  destruct (existsb ill_typed items); [done|].
  injection Hloop as <-. cbn.
  apply Forall_fmap, Forall_forall. intros name _.
  apply lstrip_no_leading_slash.
Qed.

Lemma content_names_no_leading_slash_witness :
  Forall no_leading_slash ["postgres"; "sales"; "hr/2024"].
Proof.
  apply (content_names_no_leading_slash sample_subclient
           (set__content (PyList sample_raw_content) sample_subclient)).
  vm_compute. reflexivity.
Defined.

(** X3. What [content] does on a non-default subclient when the value
    under 'content' is not a list. Null gives [None]. A number or a
    boolean cannot be iterated: [TypeError]. An empty string and an
    empty dict give the empty list; a string with characters and a dict
    with keys make the loop call [get] on a string: [AttributeError]. *)
Theorem content_of_non_list (self : PostgresSubclient) (v : PyVal) :
  is_default_subclient self = false →
  _subclient_properties self !! "content" = Some v →
  (v = PyNone → content self = Return None (set__content PyNone self))
  ∧ ((∃ b, v = PyBool b) ∨ (∃ z, v = PyInt z) →
     content self = Raise TypeError (set__content v self))
  ∧ (v = PyStr "" ∨ v = PyDict ∅ →
     content self = Return (Some []) (set__content v self))
  ∧ (∀ c s, v = PyStr (String c s) →
     content self = Raise AttributeError (set__content v self))
  ∧ (∀ d, v = PyDict d → d ≠ ∅ →
     content self = Raise AttributeError (set__content v self)).
Proof.
  intros Hdefault Hraw. rewrite (content_of_value self v Hdefault Hraw).
  repeat split.
  - by intros ->.
  - by intros [[b ->]|[z ->]].
  - intros [-> | ->]; [done|]. cbn. by rewrite map_to_list_empty.
  - by intros c s ->.
  - intros d -> Hd. cbn. rewrite content_loop_outcome.
    rewrite existsb_ill_typed_strings; [done|].
    intros Hnil. apply fmap_nil_inv in Hnil.
    by apply map_to_list_empty_iff in Hnil.
Qed.

Lemma content_of_non_list_witness :
  let with_int :=
    set__subclient_properties {[ "content" := PyInt 3 ]} sample_subclient in
  let keyed : PyVal := PyDict {[ "postgreSQLContent" := PyNone ]} in
  let with_dict :=
    set__subclient_properties {[ "content" := keyed ]} sample_subclient in
  content with_int = Raise TypeError (set__content (PyInt 3) with_int)
  ∧ content with_dict = Raise AttributeError (set__content keyed with_dict).
Proof.
  intros with_int keyed with_dict.
  assert (Hint : _subclient_properties with_int !! "content" = Some (PyInt 3))
    by (vm_compute; reflexivity).
  assert (Hdict : _subclient_properties with_dict !! "content" = Some keyed)
    by (vm_compute; reflexivity).
  split.
  - apply (content_of_non_list with_int (PyInt 3) eq_refl Hint).
    right. by exists 3%Z.
  - destruct (content_of_non_list with_dict keyed eq_refl Hdict)
      as (_ & _ & _ & _ & Hkeys).
    apply (Hkeys {[ "postgreSQLContent" := PyNone ]} eq_refl).
    intros Hempty.
    assert (Hlookup : ({[ "postgreSQLContent" := PyNone ]}
                         : gmap string PyVal) !! "postgreSQLContent"
                      = Some PyNone) by reflexivity.
    rewrite Hempty in Hlookup. done.
Defined.

(** The shape of every outcome of [content]. *)
Lemma content_outcome_shape (self : PostgresSubclient) :
  (∃ r, content self = Return r (set__content (content_read self) self))
  ∨ (∃ e, content self = Raise e (set__content (content_read self) self)).
Proof.
  unfold content_read.
  destruct (is_default_subclient self) eqn:Hdefault.
  { left. eexists. apply content_of_nothing. by left. }
  destruct (_subclient_properties self !! "content") as [v|] eqn:Hraw.
  2:{ left. eexists. apply content_of_nothing. by right. }
  rewrite (content_of_value self v Hdefault Hraw). cbn.
  destruct v; cbn; eauto;
    match goal with
    | |- context [content_loop ?l []] => destruct (content_loop l []); eauto
    end.
Qed.

Lemma content_ignores__content (v : PyVal) (self : PostgresSubclient) :
  content (set__content v self) = content self.
Proof. reflexivity. Qed.

(** X4. [content] calls no collaborator, and whether it returns or
    raises, the only attribute it has changed is [_content]: that one
    holds [None] on a default subclient or when the raw properties have
    no 'content' key, and the raw value otherwise. In particular a value
    that [_content] held before the read is lost. *)
Theorem content_changes_only__content (self : PostgresSubclient) :
  let self' := set__content (content_read self) self in
  ((∃ r, content self = Return r self') ∨ (∃ e, content self = Raise e self'))
  ∧ _subclient_properties self' = _subclient_properties self
  ∧ _postgres_properties self' = _postgres_properties self
  ∧ _backupset_object self' = _backupset_object self
  ∧ (is_default_subclient self = true → _content self' = PyNone).
Proof.
  intros self'. split; [apply content_outcome_shape|].
  repeat split. subst self'. unfold content_read. by intros ->.
Qed.

Lemma content_changes_only__content_witness :
  _content (set__content (content_read fsbased_subclient) fsbased_subclient)
  = PyNone.
Proof.
  apply (content_changes_only__content fsbased_subclient). reflexivity.
Defined.


(** ** _get_subclient_properties_json *)

Section PropertiesJsonFacts.

Context (impersonateUser proxyClient commonProperties : PyVal).

Abbreviation properties_json :=
  (_get_subclient_properties_json impersonateUser proxyClient commonProperties).

(** The document, read off the attributes it copies. *)
Lemma _get_subclient_properties_json_entries (self : PostgresSubclient) :
  ∃ entries : gmap string PyVal,
    properties_json self
    = Return (PyDict {[ "subClientProperties" := PyDict entries ]}) self
    ∧ entries !! "postgreSQLSubclientProp" = Some (_postgres_properties self)
    ∧ entries !! "content" = Some (_content self)
    ∧ entries !! "subClientEntity" = Some (_subClientEntity self)
    ∧ entries !! "contentOperationType" = Some (PyInt 1).
Proof.
  eexists. split; [reflexivity|].
  repeat split; by simplify_map_eq.
Qed.


(** X7. After [_get_subclient_properties], whatever the base-class
    refresh left behind, the update document carries under
    'postgreSQLSubclientProp' exactly what the properties mapping holds
    under that key: the fetched value, or an empty dict when the server
    sent none. *)
Theorem properties_json_after_refresh (self : PostgresSubclient) :
  ∃ k, _get_subclient_properties self
       = Call Subclient__get_subclient_properties self k
       ∧ ∀ (u : unit) (refreshed : PostgresSubclient),
           ∃ (self' : PostgresSubclient) (entries : gmap string PyVal),
             k u refreshed = Return tt self'
             ∧ properties_json self'
               = Return (PyDict {[ "subClientProperties" := PyDict entries ]})
                   self'
             ∧ entries !! "postgreSQLSubclientProp"
               = _subclient_properties self' !! "postgreSQLSubclientProp"
             ∧ entries !! "postgreSQLSubclientProp"
               = Some (default (PyDict ∅)
                         (_subclient_properties refreshed
                          !! "postgreSQLSubclientProp")).
Proof.
  destruct (_get_subclient_properties_call self) as (k & Hcall & Hk).
  exists k. split; [exact Hcall|]. intros u refreshed.
  destruct (_get_subclient_properties_json_entries
              (with_postgres_properties refreshed))
    as (entries & Hjson & Hpg & _).
  exists (with_postgres_properties refreshed), entries.
  split; [apply Hk|]. split; [exact Hjson|]. rewrite Hpg.
  unfold with_postgres_properties.
  destruct (_subclient_properties refreshed !! "postgreSQLSubclientProp")
    as [v|] eqn:Hkey; cbn.
  - by rewrite Hkey.
  - by rewrite lookup_insert_eq.
Qed.

End PropertiesJsonFacts.


(** ** backup, beyond the accepted request *)

Lemma lower_ascii_idempotent (c : ascii) :
  lower_ascii (lower_ascii c) = lower_ascii c.
Proof. destruct c as [[] [] [] [] [] [] [] []]; reflexivity. Qed.

Lemma lower_kelvin (rest : string) :
  lower (String "226" (String "132" (String "170" rest)))
  = String "k" (lower rest).
Proof. reflexivity. Qed.

(** One step of [lower]: a character on its own, unless the string
    begins with the Kelvin sign. *)
Lemma lower_cons (c : ascii) (s : string) :
  lower (String c s) = String (lower_ascii c) (lower s)
  ∨ ∃ rest, String c s = String "226" (String "132" (String "170" rest)).
Proof.
  destruct s as [|c1 [|c2 rest]]; try (by left).
  cbn [lower].
  destruct (Ascii.eqb c "226") eqn:H0; [|by left].
  destruct (Ascii.eqb c1 "132") eqn:H1; [|by left].
  destruct (Ascii.eqb c2 "170") eqn:H2; [|by left].
  apply Ascii.eqb_eq in H0, H1, H2. subst. right. by eexists.
Qed.

Lemma lower_ascii_high (c high : ascii) :
  high = "226"%char ∨ high = "132"%char ∨ high = "170"%char →
  lower_ascii c = high → c = high.
Proof.
  intros [-> | [-> | ->]];
    destruct c as [[] [] [] [] [] [] [] []]; vm_compute; congruence.
Qed.

(** No lowercase form begins with the Kelvin sign. *)
Lemma lower_no_kelvin (s rest : string) :
  lower s ≠ String "226" (String "132" (String "170" rest)).
Proof.
  intros Hlow. destruct s as [|c s]; [done|].
  destruct (lower_cons c s) as [Hc|[r Hc]].
  2:{ rewrite Hc, lower_kelvin in Hlow. done. }
  rewrite Hc in Hlow. injection Hlow as Hc0 Hlow.
  apply lower_ascii_high in Hc0 as ->; [|tauto].
  destruct s as [|c1 s]; [done|].
  destruct (lower_cons c1 s) as [Hc1|[r Hc1]].
  2:{ rewrite Hc1, lower_kelvin in Hlow. done. }
  rewrite Hc1 in Hlow. injection Hlow as Hc1' Hlow.
  apply lower_ascii_high in Hc1' as ->; [|tauto].
  destruct s as [|c2 s]; [done|].
  destruct (lower_cons c2 s) as [Hc2|[r Hc2]].
  2:{ rewrite Hc2, lower_kelvin in Hlow. done. }
  rewrite Hc2 in Hlow. injection Hlow as Hc2' Hlow.
  apply lower_ascii_high in Hc2' as ->; [|tauto].
  rewrite lower_kelvin in Hc. done.
Qed.

Lemma lower_idempotent_upto (n : nat) (s : string) :
  (String.length s ≤ n)%nat → lower (lower s) = lower s.
Proof.
  revert s. induction n as [|n IH]; intros s Hlen.
  { destruct s; [done | cbn in Hlen; lia]. }
  destruct s as [|c s]; [done|]. cbn in Hlen.
  destruct (lower_cons c s) as [Hc|[rest Hc]].
  - rewrite Hc.
    destruct (lower_cons (lower_ascii c) (lower s)) as [Hcc|[rest Hcc]].
    + rewrite Hcc, lower_ascii_idempotent, IH by lia. reflexivity.
    + rewrite <- Hc in Hcc. by apply lower_no_kelvin in Hcc.
  - rewrite Hc, lower_kelvin.
    injection Hc as _ Hs. subst s. cbn in Hlen.
    destruct (lower_cons "k" (lower rest)) as [Hk|[r Hk]]; [|done].
    rewrite Hk, IH by lia. reflexivity.
Qed.

Lemma lower_idempotent (s : string) : lower (lower s) = lower s.
Proof. by apply (lower_idempotent_upto (String.length s)). Qed.

(** X8. [backup] sees its level through [lower] only: two levels with
    the same lowercase form give the same program, and a level can be
    replaced by its lowercase form. *)
Theorem backup_level_case_insensitive
    (level level' : string) (backup_prefix : option string)
    (self : PostgresSubclient) :
  lower level = lower level' →
  backup level backup_prefix self = backup level' backup_prefix self
  ∧ backup (lower level) backup_prefix self = backup level backup_prefix self.
Proof.
  intros Hsame. unfold backup. rewrite lower_idempotent. by rewrite Hsame.
Qed.

Lemma backup_level_case_insensitive_witness :
  backup "DIFFERENTIAL" (Some "nightly") sample_subclient
  = backup "Differential" (Some "nightly") sample_subclient.
Proof.
  exact (proj1 (backup_level_case_insensitive "DIFFERENTIAL" "Differential"
                  (Some "nightly") sample_subclient eq_refl)).
Defined.

Lemma update_backupOpts_no_path request_json other e :
  backupOpts request_json = Err e →
  update_backupOpts request_json other = Err e.
Proof.
  unfold backupOpts, update_backupOpts.
  destruct (getitem request_json "taskInfo") as [task_info|]; cbn; [|done].
  destruct (getitem task_info "subTasks") as [sub_tasks|]; cbn; [|done].
  destruct (getitem_idx sub_tasks 0) as [sub_task|]; cbn; [|done].
  destruct (getitem sub_task "options") as [options|]; cbn; [|done].
  destruct (getitem options "backupOpts") as [backup_opts|]; cbn; done.
Qed.

Lemma update_backupOpts_no_dict request_json other v :
  backupOpts request_json = Ok v →
  (∀ opts, v ≠ PyDict opts) →
  update_backupOpts request_json other = Err AttributeError.
Proof.
  unfold backupOpts, update_backupOpts.
  destruct (getitem request_json "taskInfo") as [task_info|]; cbn; [|done].
  destruct (getitem task_info "subTasks") as [sub_tasks|]; cbn; [|done].
  destruct (getitem_idx sub_tasks 0) as [sub_task|]; cbn; [|done].
  destruct (getitem sub_task "options") as [options|]; cbn; [|done].
  destruct (getitem options "backupOpts") as [backup_opts|]; cbn; [|done].
  intros [= ->] Hnot. destruct v; try done. by destruct (Hnot d).
Qed.

(** The program of [backup] with a prefix, once the level is accepted:
    the envelope call, then the update of the envelope, the lookup of the
    service, the transport and the response processing. *)
Lemma backup_with_prefix_call backup_level backup_prefix self :
  lower backup_level ∈ backup_levels →
  ∃ k,
    backup backup_level (Some backup_prefix) self
    = Call (_backup_json (lower backup_level) false "BEFORE_SYNTH") self k
    ∧ ∀ request_json self1,
        (∀ e,
           update_backupOpts request_json (hana_options backup_prefix) = Err e →
           k request_json self1 = Raise e self1)
        ∧ (∀ doc,
             update_backupOpts request_json (hana_options backup_prefix)
             = Ok doc →
             match _services (_commcell_object self1) !! "CREATE_TASK" with
             | None =>
                 k request_json self1
                 = Raise (KeyError (PyStr "CREATE_TASK")) self1
             | Some url =>
                 ∃ k',
                   k request_json self1
                   = Call (make_request "POST" url doc) self1 k'
                   ∧ ∀ flag response self2,
                       k' (flag, response) self2
                       = Call (_process_backup_response flag response)
                           self2 Return
             end).
Proof.
  intros Hok. rewrite backup_with_prefix by exact Hok.
  unfold service. prog_unfold _backup_request_json.
  eexists. split; [reflexivity|].
  intros request_json self1. cbn. fold (hana_options backup_prefix).
  split.
  - by intros e ->.
  - intros doc ->. cbn.
    destruct (_services (_commcell_object self1) !! "CREATE_TASK"); cbn;
      [|done].
    eexists. split; reflexivity.
Qed.

(** X9. With a valid level and a prefix, an envelope without a
    backup-options dict at taskInfo.subTasks[0].options.backupOpts ends
    the call before anything is posted: the exception of the failed read
    of the path ([KeyError], [IndexError], [TypeError]) comes out as it
    is, and a value at the end of the path that is not a dict gives
    [AttributeError]. *)
Theorem backup_envelope_without_options
    (backup_level backup_prefix : string) (self : PostgresSubclient) :
  lower backup_level ∈ backup_levels →
  ∃ k,
    backup backup_level (Some backup_prefix) self
    = Call (_backup_json (lower backup_level) false "BEFORE_SYNTH") self k
    ∧ ∀ (request_json : PyVal) (self1 : PostgresSubclient),
        (∀ e, backupOpts request_json = Err e →
              k request_json self1 = Raise e self1)
        ∧ (∀ v, backupOpts request_json = Ok v →
                (∀ opts, v ≠ PyDict opts) →
                k request_json self1 = Raise AttributeError self1).
Proof.
  intros Hok.
  destruct (backup_with_prefix_call backup_level backup_prefix self Hok)
    as (k & Hcall & Hk).
  exists k. split; [exact Hcall|]. intros request_json self1.
  destruct (Hk request_json self1) as [Herr _]. split.
  - intros e Hpath. apply Herr. by apply update_backupOpts_no_path.
  - intros v Hpath Hnot. apply Herr.
    by apply (update_backupOpts_no_dict _ _ v).
Qed.

Lemma backup_envelope_without_options_witness :
  ∃ k,
    backup "full" (Some "nightly") sample_subclient
    = Call (_backup_json "full" false "BEFORE_SYNTH") sample_subclient k
    ∧ k (PyDict {[ "taskInfo" := PyDict {[ "subTasks" := PyList [] ]} ]})
        sample_subclient
      = Raise IndexError sample_subclient
    ∧ k (PyDict ∅) sample_subclient
      = Raise (KeyError (PyStr "taskInfo")) sample_subclient.
Proof.
  assert (Hok : lower "full" ∈ backup_levels)
    by (apply (bool_decide_unpack _); vm_compute; exact I).
  destruct (backup_envelope_without_options "full" "nightly"
              sample_subclient Hok) as (k & Hcall & Hk).
  exists k. split; [exact Hcall|]. split.
  - apply (proj1 (Hk _ sample_subclient)). vm_compute. reflexivity.
  - apply (proj1 (Hk _ sample_subclient)). vm_compute. reflexivity.
Defined.

(** X10. With a valid level, a prefix and a good envelope, a commcell
    whose services have no 'CREATE_TASK' makes [backup] raise
    [KeyError('CREATE_TASK')] after the envelope was built and before
    the transport is called. *)
Theorem backup_missing_service
    (backup_level backup_prefix : string) (self : PostgresSubclient) :
  lower backup_level ∈ backup_levels →
  ∃ k,
    backup backup_level (Some backup_prefix) self
    = Call (_backup_json (lower backup_level) false "BEFORE_SYNTH") self k
    ∧ ∀ (request_json : PyVal) (self1 : PostgresSubclient)
        (opts : gmap string PyVal),
        backupOpts request_json = Ok (PyDict opts) →
        _services (_commcell_object self1) !! "CREATE_TASK" = None →
        k request_json self1 = Raise (KeyError (PyStr "CREATE_TASK")) self1.
Proof.
  intros Hok.
  destruct (backup_with_prefix_call backup_level backup_prefix self Hok)
    as (k & Hcall & Hk).
  exists k. split; [exact Hcall|].
  intros request_json self1 opts Hpath Hnone.
  destruct (update_backupOpts_read request_json opts
              (hana_options backup_prefix) Hpath) as (doc & Hupdate & _).
  destruct (Hk request_json self1) as [_ Hdoc].
  specialize (Hdoc doc Hupdate). by rewrite Hnone in Hdoc.
Qed.

Lemma backup_missing_service_witness :
  ∃ k,
    backup "full" (Some "nightly") unserviced_subclient
    = Call (_backup_json "full" false "BEFORE_SYNTH") unserviced_subclient k
    ∧ k (sample_envelope "full" false "BEFORE_SYNTH") unserviced_subclient
      = Raise (KeyError (PyStr "CREATE_TASK")) unserviced_subclient.
Proof.
  assert (Hok : lower "full" ∈ backup_levels)
    by (apply (bool_decide_unpack _); vm_compute; exact I).
  destruct (backup_missing_service "full" "nightly" unserviced_subclient Hok)
    as (k & Hcall & Hk).
  exists k. split; [exact Hcall|].
  eapply Hk; [|reflexivity]. vm_compute. reflexivity.
Defined.

(** X12. A backup with a prefix that goes well, step by step: the
    envelope is asked for in the object as it is, the service and the
    post use the object as the envelope builder left it, the response
    processing gets the flag and the response of the transport in the
    object as the transport left it, and what [backup] gives back, a job
    or an exception, is what the response processing gave. Three calls
    are made, in this order, and no other. *)
Theorem backup_with_prefix_run
    (h : Handler) (backup_level backup_prefix : string)
    (self self1 : PostgresSubclient) (envelope : PyVal)
    (opts : gmap string PyVal) (url : string) :
  lower backup_level ∈ backup_levels →
  h _ (_backup_json (lower backup_level) false "BEFORE_SYNTH") self
  = (Ok envelope, self1) →
  backupOpts envelope = Ok (PyDict opts) →
  _services (_commcell_object self1) !! "CREATE_TASK" = Some url →
  ∃ doc,
    update_backupOpts envelope (hana_options backup_prefix) = Ok doc
    ∧ backupOpts doc = Ok (PyDict (hana_options backup_prefix ∪ opts))
    ∧ ∀ flag response self2 outcome self3,
        h _ (make_request "POST" url doc) self1
        = (Ok (flag, response), self2) →
        h _ (_process_backup_response flag response) self2
        = (outcome, self3) →
        run h (backup backup_level (Some backup_prefix) self)
        = {| result := outcome;
             final := self3;
             trace :=
               [ Called (_backup_json (lower backup_level) false "BEFORE_SYNTH")
                   self;
                 Called (make_request "POST" url doc) self1;
                 Called (_process_backup_response flag response) self2 ] |}.
Proof.
  intros Hok Henvelope Hpath Hurl.
  destruct (backup_with_prefix_call backup_level backup_prefix self Hok)
    as (k & Hcall & Hk).
  destruct (update_backupOpts_read envelope opts (hana_options backup_prefix)
              Hpath) as (doc & Hupdate & Hread).
  exists doc. split; [exact Hupdate|]. split; [exact Hread|].
  intros flag response self2 outcome self3 Hpost Hprocess.
  destruct (Hk envelope self1) as [_ Hdoc]. specialize (Hdoc doc Hupdate).
  rewrite Hurl in Hdoc. destruct Hdoc as (k' & Hk1 & Hk').
  rewrite Hcall. cbn [run]. rewrite Henvelope, Hk1. cbn [run].
  rewrite Hpost, Hk'. cbn [run]. rewrite Hprocess.
  by destruct outcome.
Qed.

Lemma backup_with_prefix_run_witness :
  ∃ doc,
    run sample_handler (backup "full" (Some "nightly") sample_subclient)
    = {| result := Ok (JobHandle 2);
         final := sample_subclient;
         trace :=
           [ Called (_backup_json "full" false "BEFORE_SYNTH") sample_subclient;
             Called (make_request "POST" "https://cs/webconsole/api/CreateTask"
                       doc) sample_subclient;
             Called (_process_backup_response true
                       {| status_code := 200;
                          json := PyDict {[ "jobIds" := PyList [PyStr "2"] ]} |})
               sample_subclient ] |}.
Proof.
  assert (Hok : lower "full" ∈ backup_levels)
    by (apply (bool_decide_unpack _); vm_compute; exact I).
  destruct (backup_with_prefix_run sample_handler "full" "nightly"
              sample_subclient sample_subclient
              (sample_envelope "full" false "BEFORE_SYNTH") _
              "https://cs/webconsole/api/CreateTask"
              Hok eq_refl eq_refl eq_refl) as (doc & _ & _ & Hrun).
  exists doc. exact (Hrun _ _ _ _ _ eq_refl eq_refl).
Defined.

(** X13. [backup] catches nothing. When the envelope builder raises,
    that exception is the outcome and nothing else was called; when the
    transport raises, that exception is the outcome and the response
    processing was never called. The object is left as the failing
    callee left it. *)
Theorem backup_collaborator_errors
    (h : Handler) (backup_level backup_prefix : string)
    (self self1 : PostgresSubclient) (e : PyExc) :
  lower backup_level ∈ backup_levels →
  (h _ (_backup_json (lower backup_level) false "BEFORE_SYNTH") self
   = (Err e, self1) →
   run h (backup backup_level (Some backup_prefix) self)
   = {| result := Err e; final := self1;
        trace := [ Called (_backup_json (lower backup_level) false
                             "BEFORE_SYNTH") self ] |})
  ∧ (∀ envelope opts url self2,
       h _ (_backup_json (lower backup_level) false "BEFORE_SYNTH") self
       = (Ok envelope, self1) →
       backupOpts envelope = Ok (PyDict opts) →
       _services (_commcell_object self1) !! "CREATE_TASK" = Some url →
       ∃ doc,
         update_backupOpts envelope (hana_options backup_prefix) = Ok doc
         ∧ (h _ (make_request "POST" url doc) self1 = (Err e, self2) →
          run h (backup backup_level (Some backup_prefix) self)
          = {| result := Err e; final := self2;
               trace := [ Called (_backup_json (lower backup_level) false
                                    "BEFORE_SYNTH") self;
                          Called (make_request "POST" url doc) self1 ] |})).
Proof.
  intros Hok.
  destruct (backup_with_prefix_call backup_level backup_prefix self Hok)
    as (k & Hcall & Hk).
  split.
  - intros Hraise. rewrite Hcall. cbn [run]. by rewrite Hraise.
  - intros envelope opts url self2 Henvelope Hpath Hurl.
    destruct (update_backupOpts_read envelope opts
                (hana_options backup_prefix) Hpath) as (doc & Hupdate & _).
    exists doc. split; [exact Hupdate|]. intros Hpost.
    destruct (Hk envelope self1) as [_ Hdoc]. specialize (Hdoc doc Hupdate).
    rewrite Hurl in Hdoc. destruct Hdoc as (k' & Hk1 & _).
    rewrite Hcall. cbn [run]. rewrite Henvelope, Hk1. cbn [run].
    by rewrite Hpost.
Qed.

Lemma backup_collaborator_errors_witness :
  run (failing_handler true) (backup "full" (Some "nightly") sample_subclient)
  = {| result := Err (SDKException "Subclient" "102");
       final := sample_subclient;
       trace := [ Called (_backup_json "full" false "BEFORE_SYNTH")
                    sample_subclient ] |}
  ∧ ∃ doc,
      run (failing_handler false)
        (backup "full" (Some "nightly") sample_subclient)
      = {| result := Err (SDKException "Response" "101");
           final := sample_subclient;
           trace := [ Called (_backup_json "full" false "BEFORE_SYNTH")
                        sample_subclient;
                      Called (make_request "POST"
                                "https://cs/webconsole/api/CreateTask" doc)
                        sample_subclient ] |}.
Proof.
  assert (Hok : lower "full" ∈ backup_levels)
    by (apply (bool_decide_unpack _); vm_compute; exact I).
  split.
  - exact (proj1 (backup_collaborator_errors (failing_handler true)
                    "full" "nightly" sample_subclient sample_subclient
                    (SDKException "Subclient" "102") Hok) eq_refl).
  - destruct (proj2 (backup_collaborator_errors (failing_handler false)
                       "full" "nightly" sample_subclient sample_subclient
                       (SDKException "Response" "101") Hok)
                (sample_envelope "full" false "BEFORE_SYNTH") _
                "https://cs/webconsole/api/CreateTask" sample_subclient
                eq_refl eq_refl eq_refl) as (doc & _ & Hrun).
    exists doc. exact (Hrun eq_refl).
Defined.

(** ** restore_postgres_server and the refresh, composed *)

(** X14. [restore_postgres_server] gives back what the in-place restore
    of the instance gives, a job or an exception, after that single
    call. It never puts the restore association back: unless the callee
    itself changes it, the instance still holds this subclient's entity
    afterwards, also when the restore failed. *)
Theorem restore_outcome
    (h : Handler)
    (database_list dest_client_name dest_instance_name
     copy_precedence from_time to_time clone_env clone_options : PyVal)
    (self : PostgresSubclient) :
  ∃ databases dest_client dest_instance flag,
    let self' := set__restore_association (_subClientEntity self) self in
    let called :=
      restore_in_place databases dest_client dest_instance
        (backupset_name (_backupset_object self)) flag
        copy_precedence from_time to_time clone_env clone_options in
    ∀ outcome after,
      h _ called self' = (outcome, after) →
      run h (restore_postgres_server database_list dest_client_name
               dest_instance_name copy_precedence from_time to_time
               clone_env clone_options self)
      = {| result := outcome; final := after;
           trace := [Called called self'] |}
      ∧ (after = self' →
         _restore_association (_instance_object (_backupset_object after))
         = _subClientEntity self).
Proof.
  do 4 eexists. intros self' called outcome after Hcalled.
  rewrite restore_postgres_server_call. cbn [run].
  subst called self'. rewrite Hcalled.
  split; [by destruct outcome | by intros ->].
Qed.

Lemma restore_outcome_witness :
  ∃ called : Cmd Job,
    run (failing_handler false)
      (restore_postgres_server PyNone PyNone PyNone PyNone PyNone PyNone
         (PyBool false) PyNone sample_subclient)
    = {| result := Err (SDKException "Instance" "102");
         final := set__restore_association sample_entity sample_subclient;
         trace := [Called called
                     (set__restore_association sample_entity
                        sample_subclient)] |}.
Proof.
  destruct (restore_outcome (failing_handler false)
              PyNone PyNone PyNone PyNone PyNone PyNone (PyBool false) PyNone
              sample_subclient) as (db & dc & di & flag & Hrun).
  eexists. refine (proj1 (Hrun _ _ _)).
  destruct (failing_handler false Job _ _) as [outcome after] eqn:Hh.
  cbn in Hh. injection Hh as <- <-. reflexivity.
Defined.

(** What [content] gives depends on the object through
    [is_default_subclient] and the 'content' entry only. *)
Lemma content_result_depends (h : Handler) (self1 self2 : PostgresSubclient) :
  is_default_subclient self1 = is_default_subclient self2 →
  _subclient_properties self1 !! "content"
  = _subclient_properties self2 !! "content" →
  result (run h (content self1)) = result (run h (content self2)).
Proof.
  intros Hdefault Hraw.
  destruct (is_default_subclient self2) eqn:Hd2.
  { rewrite !content_of_nothing by (by left). reflexivity. }
  destruct (_subclient_properties self2 !! "content") as [v|] eqn:Hr2.
  2:{ rewrite !content_of_nothing by (by right). reflexivity. }
  rewrite (content_of_value self1 v), (content_of_value self2 v) by done.
  destruct v; cbn; try reflexivity;
    match goal with
    | |- context [content_loop ?l []] => by destruct (content_loop l [])
    end.
Qed.

(** X15. The key that [_get_subclient_properties] may add never shows
    in [content]: read after the refresh, [content] gives what the
    properties left by the base-class refresh give. *)
Theorem refresh_then_content (self : PostgresSubclient) :
  ∃ k, _get_subclient_properties self
       = Call Subclient__get_subclient_properties self k
       ∧ ∀ (u : unit) (refreshed : PostgresSubclient),
           ∃ self',
             k u refreshed = Return tt self'
             ∧ content_read self' = content_read refreshed
             ∧ ∀ h : Handler,
                 result (run h (content self'))
                 = result (run h (content refreshed)).
Proof.
  destruct (_get_subclient_properties_call self) as (k & Hcall & Hk).
  exists k. split; [exact Hcall|]. intros u refreshed.
  exists (with_postgres_properties refreshed). split; [apply Hk|].
  assert (Hdefault : is_default_subclient (with_postgres_properties refreshed)
                     = is_default_subclient refreshed).
  { unfold with_postgres_properties. by case_match. }
  assert (Hraw : _subclient_properties (with_postgres_properties refreshed)
                   !! "content"
                 = _subclient_properties refreshed !! "content").
  { unfold with_postgres_properties. case_match; cbn; [done|].
    by rewrite lookup_insert_ne. }
  split.
  - unfold content_read. by rewrite Hdefault, Hraw.
  - intros h. by apply content_result_depends.
Qed.
